(** * EyeTest.py: the astigmatism screening script, embedded and verified

    The script [src/EyeTest.py] is one procedure, [analyze_astigmatism]:
    it asks for a file, decodes it, runs a fixed chain of OpenCV stages,
    fits an ellipse to the contour of largest area and prints an axis
    ratio with a threshold interpretation.

    The embedding keeps the procedure as it is written.  Every call that
    leaves the script (tkinter, [print], [cv2.*], [plt.*]) is appended to
    a trace; the values those calls give back come from a [library]
    record, so that the script's own control flow (guards, early
    [return]s, the [max] selection, the ratio and the threshold test) is
    what the theorems are about.  Python floats are IEEE binary64 values,
    taken from the Standard Library's [SpecFloat]. *)

From Stdlib Require Import ZArith List Ascii String Bool Lia.
From Stdlib Require Import Floats.SpecFloat.
Import ListNotations.

Local Open Scope string_scope.
Local Open Scope list_scope.
Local Open Scope Z_scope.

(** ** Python floats and the builtins the script applies to them *)

Module PyFloat.

Definition prec : Z := 53.
Definition emax : Z := 1024.

Definition float : Type := spec_float.

(** [float('inf')] *)
Definition inf : float := S754_infinity false.

(** An [int] operand of a float comparison or division is converted
    to the float of the same value (exact for the small literals of
    the script). *)
Definition of_int (n : Z) : float := binary_normalize prec emax n 0 false.

(** A decimal literal [n / d] of the source text denotes the binary64
    value nearest to the quotient. *)
Definition decimal (n d : Z) : float := SFdiv prec emax (of_int n) (of_int d).

Definition eqb (a b : float) : bool := SFeqb a b.
Definition ltb (a b : float) : bool := SFltb a b.
Definition gtb (a b : float) : bool := SFltb b a.
Definition leb (a b : float) : bool := SFleb a b.

(** [a / b]: CPython's [float_div] raises [ZeroDivisionError] when the
    divisor compares equal to zero and otherwise returns the IEEE
    quotient. *)
Definition truediv (a b : float) : option float :=
  if eqb b (of_int 0) then None else Some (SFdiv prec emax a b).

(** The builtins [min(a, b)] and [max(a, b)]: the first argument is
    kept unless the second compares strictly below (above) it. *)
Definition min (a b : float) : float := if ltb b a then b else a.
Definition max (a b : float) : float := if gtb b a then b else a.

Definition is_nan (a : float) : bool :=
  match a with S754_nan => true | _ => false end.

(** A Python float handed to a C [float] parameter is rounded to
    single precision (to nearest, ties to even). *)
Definition to_single (a : float) : float :=
  match a with
  | S754_finite s m e => binary_round 24 128 s m e
  | _ => a
  end.

(** The literal [1.1] of line 113, as the binary64 value it denotes. *)
Definition lit_1_1 : float := S754_finite false 4953959590107546 (-52).

End PyFloat.

Abbreviation float := PyFloat.float.

(** ** Data of the script *)

(** A contour as [cv2.findContours] returns it: the sequence of its
    integer points; [len] of the array is the number of points. *)
Definition point : Type := (Z * Z)%type.
Definition contour : Type := list point.

(** The value [cv2.fitEllipse] returns, a tuple
    [((x, y), (major_axis, minor_axis), angle)] under the names line 86
    gives to its parts. *)
Record ellipse : Type := mk_ellipse {
  center : float * float;
  axes : float * float;
  angle : float
}.

(** [cv2.ellipse(img, box, color, thickness)] asserts
    [box.size.width >= 0 && box.size.height >= 0 && thickness <= MAX_THICKNESS]
    on the box it received, whose fields are C [float]s, and raises
    [cv2.error] otherwise; a NaN length fails the comparison. *)
Definition MAX_THICKNESS : Z := 32767.

Definition ellipse_accepts (box : ellipse) (thickness : Z) : bool :=
  PyFloat.leb (PyFloat.of_int 0) (PyFloat.to_single (fst (axes box))) &&
  PyFloat.leb (PyFloat.of_int 0) (PyFloat.to_single (snd (axes box))) &&
  (thickness <=? MAX_THICKNESS).

Inductive color_code := COLOR_BGR2GRAY | COLOR_BGR2RGB.
Inductive retrieval_mode := RETR_EXTERNAL.
Inductive approx_method := CHAIN_APPROX_SIMPLE.

(** An f-string is kept as its parts: literal text, a [str] field and a
    float field printed with format [.2f]. *)
Inductive fpart :=
| Lit (s : string)
| Fmt_s (s : string)
| Fmt_2f (x : float).

Definition fstring : Type := list fpart.

(** Exceptions that the calls of the script can raise. *)
Inductive exn := ZeroDivisionError | ValueError | cv2_error.

(** How a block of statements ends: it falls through with a value, it
    executes [return], or it raises. *)
Inductive completion (A : Type) : Type :=
| Normal (a : A)
| Returned
| Raised (e : exn).
Arguments Normal {A} a.
Arguments Returned {A}.
Arguments Raised {A} e.

Section Script.

(** Decoded rasters ([numpy] arrays) are not inspected by the script:
    they only travel from one library call to the next. *)
Context {image : Type}.

(** Every call that leaves the script, with its arguments. *)
Inductive call :=
| tk_Tk
| root_withdraw
| filedialog_askopenfilename (title : string) (filetypes : list (string * string))
| py_print (s : fstring)
| os_path_basename (p : string)
| cv2_imread (p : string)
| cv2_cvtColor (src : image) (code : color_code)
| cv2_GaussianBlur (src : image) (ksize : Z * Z) (sigmaX : Z)
| cv2_Canny (src : image) (threshold1 threshold2 : Z)
| cv2_findContours (src : image) (mode : retrieval_mode) (method : approx_method)
| cv2_contourArea (c : contour)
| cv2_fitEllipse (c : contour)
| ndarray_copy (a : image)
| cv2_ellipse (img : image) (box : ellipse) (color : Z * Z * Z) (thickness : Z)
| plt_figure (figsize : Z * Z)
| plt_imshow (X : image) (cmap : option string)
| plt_title (s : string)
| plt_axis (s : string)
| plt_show.

Definition trace : Type := list call.

(** What the outside world answers: the user's choice in the file
    dialog (the empty string when the dialog is dismissed) and the
    results of the library functions. *)
Record library : Type := {
  askopenfilename : string;
  basename : string -> string;
  imread : string -> option image;
  cvtColor : image -> color_code -> image;
  GaussianBlur : image -> Z * Z -> Z -> image;
  Canny : image -> Z -> Z -> image;
  findContours : image -> retrieval_mode -> approx_method -> list contour;
  contourArea : contour -> float;
  fitEllipse : contour -> ellipse;
  draw_ellipse : image -> ellipse -> Z * Z * Z -> Z -> image
}.

(** *** Statements: a trace of calls and a completion *)

Definition M (A : Type) : Type := (trace * completion A)%type.

Definition ret {A} (a : A) : M A := ([], Normal a).

Definition bind {A B} (m : M A) (k : A -> M B) : M B :=
  match m with
  | (t, Normal a) => let r := k a in (t ++ fst r, snd r)
  | (t, Returned) => (t, Returned)
  | (t, Raised e) => (t, Raised e)
  end.

Definition emit (c : call) : M unit := ([c], Normal tt).
Definition emit_val {A} (c : call) (a : A) : M A := ([c], Normal a).
Definition return_None {A} : M A := ([], Returned).
Definition raise {A} (e : exn) : M A := ([], Raised e).

Definition calls {A} (m : M A) : trace := fst m.
Definition outcome {A} (m : M A) : completion A := snd m.

End Script.

Arguments call : clear implicits.
Arguments trace : clear implicits.
Arguments library : clear implicits.
Arguments M : clear implicits.

Declare Scope py_scope.
Delimit Scope py_scope with py.
Notation "x <- m ;; k" := (bind m (fun x => k))
  (at level 61, m at next level, right associativity) : py_scope.
Notation "m ;; k" := (bind m (fun _ => k))
  (at level 61, right associativity) : py_scope.

(** ** The builtin [max(iterable, key=...)]

    CPython's [min_max]: the first item and its key start as the
    maximum; every later item replaces it only when its key compares
    strictly greater.  An empty iterable raises [ValueError].  The key
    function is called once per item, in order. *)

Section PyMax.
Context {image A : Type}.
Variable key : A -> M image float.
Local Open Scope py_scope.

Fixpoint max_loop (maxitem : A) (maxval : float) (it : list A) : M image A :=
  match it with
  | [] => ret maxitem
  | item :: it' =>
      val <- key item ;;
      if PyFloat.gtb val maxval
      then max_loop item val it'
      else max_loop maxitem maxval it'
  end.

Definition py_max (iterable : list A) : M image A :=
  match iterable with
  | [] => raise ValueError
  | item :: it =>
      maxval <- key item ;;
      max_loop item maxval it
  end.
End PyMax.

(** ** The procedure [analyze_astigmatism] *)

Definition nl : string := String (Ascii.ascii_of_nat 10) EmptyString.

Definition truthy (s : string) : bool :=
  match s with EmptyString => false | _ => true end.

Definition msg_no_selection : fstring :=
  [Lit "No image selected. Exiting."].

Definition msg_selected (name : string) : fstring :=
  [Lit "Selected image: "; Fmt_s name].

Definition msg_load_error (image_path : string) : fstring :=
  [Lit "Error: Could not load image from '"; Fmt_s image_path;
   Lit "'. Please check if the file exists and is a valid image format."].

Definition msg_no_contours : fstring :=
  [Lit "No contours found in the image. Ensure the image clearly shows the eye/cornea with good contrast."].

Definition msg_not_enough_points : fstring :=
  [Lit "Not enough points found in the largest contour to fit an ellipse. The contour might be too small, fragmented, or poorly detected."].

Definition msg_minor_zero : fstring :=
  [Lit "Warning: Minor axis is zero. Cannot calculate a meaningful axis ratio. This may indicate a highly elongated or degenerate ellipse fit."].

Definition msg_results_header : fstring :=
  [Lit (nl ++ "--- Analysis Results ---")%string].

Definition msg_possible : fstring :=
  [Lit (nl ++ "Interpretation: Possible Astigmatism Detected.")%string].

Definition msg_elliptical : fstring :=
  [Lit "The cornea's shape appears significantly elliptical."].

Definition msg_no_significant : fstring :=
  [Lit (nl ++ "Interpretation: No Significant Astigmatism Indicated by Shape Ratio.")%string].

Definition msg_spherical : fstring :=
  [Lit "The cornea's shape appears relatively spherical or mildly elliptical."].

Definition msg_footer : fstring :=
  [Lit (nl ++ "------------------------")%string].

Section Analysis.
Context {image : Type}.
Variable L : library image.
Local Open Scope py_scope.

Definition when (b : bool) (body : M image unit) : M image unit :=
  if b then body else ret tt.

Definition print (s : fstring) : M image unit := emit (py_print s).

(** [cv2.fitEllipse] rejects an input of fewer than five points with
    [cv2.error]. *)
Definition call_fitEllipse (c : contour) : M image ellipse :=
  emit (cv2_fitEllipse c) ;;
  if Z.of_nat (List.length c) <? 5 then raise cv2_error else ret (fitEllipse L c).

(** [cv2.ellipse] draws into the array it is given, or rejects the box. *)
Definition call_ellipse (img : image) (box : ellipse) (color : Z * Z * Z)
    (thickness : Z) : M image image :=
  emit (cv2_ellipse img box color thickness) ;;
  if ellipse_accepts box thickness
  then ret (draw_ellipse L img box color thickness)
  else raise cv2_error.

Definition call_contourArea (c : contour) : M image float :=
  emit_val (cv2_contourArea c) (contourArea L c).

Definition of_option {A} (e : exn) (o : option A) : M image A :=
  match o with Some a => ret a | None => raise e end.

(** Lines 94-99. *)
Definition compute_axis_ratio (major_axis minor_axis : float) : M image float :=
  if PyFloat.eqb (PyFloat.min major_axis minor_axis) (PyFloat.of_int 0)
  then
    print msg_minor_zero ;;
    ret PyFloat.inf
  else
    of_option ZeroDivisionError
      (PyFloat.truediv (PyFloat.max major_axis minor_axis)
                       (PyFloat.min major_axis minor_axis)).

(** Lines 113-118. *)
Definition interpret (axis_ratio : float) : M image unit :=
  if PyFloat.gtb axis_ratio PyFloat.lit_1_1
  then
    print msg_possible ;;
    print msg_elliptical
  else
    print msg_no_significant ;;
    print msg_spherical.

Definition analyze_astigmatism : M image unit :=
  emit tk_Tk ;;
  emit root_withdraw ;;
  image_path <- emit_val
    (filedialog_askopenfilename "Select an Eye Image"
       [("Image files", "*.jpg *.jpeg *.png *.bmp *.tiff"); ("All files", "*.*")])
    (askopenfilename L) ;;
  when (negb (truthy image_path))
    (print msg_no_selection ;;
     return_None) ;;
  name <- emit_val (os_path_basename image_path) (basename L image_path) ;;
  print (msg_selected name) ;;
  loaded <- emit_val (cv2_imread image_path) (imread L image_path) ;;
  match loaded with
  | None =>
      print (msg_load_error image_path) ;;
      return_None
  | Some image =>
      gray <- emit_val (cv2_cvtColor image COLOR_BGR2GRAY)
                       (cvtColor L image COLOR_BGR2GRAY) ;;
      blurred <- emit_val (cv2_GaussianBlur gray (7, 7) 0)
                          (GaussianBlur L gray (7, 7) 0) ;;
      edges <- emit_val (cv2_Canny blurred 30 150) (Canny L blurred 30 150) ;;
      contours <- emit_val
        (cv2_findContours edges RETR_EXTERNAL CHAIN_APPROX_SIMPLE)
        (findContours L edges RETR_EXTERNAL CHAIN_APPROX_SIMPLE) ;;
      when (match contours with [] => true | _ => false end)
        (print msg_no_contours ;;
         emit (plt_figure (8, 6)) ;;
         rgb <- emit_val (cv2_cvtColor image COLOR_BGR2RGB)
                         (cvtColor L image COLOR_BGR2RGB) ;;
         emit (plt_imshow rgb None) ;;
         emit (plt_title "Original Image (No Contours Found)") ;;
         emit (plt_axis "off") ;;
         emit plt_show ;;
         return_None) ;;
      largest_contour <- py_max call_contourArea contours ;;
      when (Z.of_nat (List.length largest_contour) <? 5)
        (print msg_not_enough_points ;;
         emit (plt_figure (8, 6)) ;;
         emit (plt_imshow edges (Some "gray")) ;;
         emit (plt_title "Edges Detected (Insufficient Points for Ellipse Fit)") ;;
         emit (plt_axis "off") ;;
         emit plt_show ;;
         return_None) ;;
      ellipse <- call_fitEllipse largest_contour ;;
      let '(x, y) := center ellipse in
      let '(major_axis, minor_axis) := axes ellipse in
      let angle := angle ellipse in
      result_img <- emit_val (ndarray_copy image) image ;;
      result_img <- call_ellipse result_img ellipse (0, 255, 0) 2 ;;
      axis_ratio <- compute_axis_ratio major_axis minor_axis ;;
      print msg_results_header ;;
      print [Lit "Center of Ellipse: ("; Fmt_2f x; Lit ", "; Fmt_2f y; Lit ")"] ;;
      print [Lit "Major Axis Length: "; Fmt_2f major_axis; Lit " pixels"] ;;
      print [Lit "Minor Axis Length: "; Fmt_2f minor_axis; Lit " pixels"] ;;
      print [Lit "Orientation Angle: "; Fmt_2f angle; Lit " degrees"] ;;
      print [Lit "Axis Ratio (Major/Minor): "; Fmt_2f axis_ratio] ;;
      interpret axis_ratio ;;
      print msg_footer ;;
      emit (plt_figure (10, 8)) ;;
      rgb <- emit_val (cv2_cvtColor result_img COLOR_BGR2RGB)
                      (cvtColor L result_img COLOR_BGR2RGB) ;;
      emit (plt_imshow rgb None) ;;
      emit (plt_title "Ellipse Fit of Cornea") ;;
      emit (plt_axis "off") ;;
      emit plt_show
  end.

End Analysis.

(** ** What [max(contours, key=cv2.contourArea)] selects *)

Section Selection.
Context {A : Type}.
Variable key : A -> float.

(** The item the loop of [py_max] holds at its end, as a function of
    the keys alone. *)
Fixpoint scan (maxitem : A) (it : list A) : A :=
  match it with
  | [] => maxitem
  | item :: it' =>
      if PyFloat.gtb (key item) (key maxitem)
      then scan item it'
      else scan maxitem it'
  end.

Definition first_max (iterable : list A) : option A :=
  match iterable with
  | [] => None
  | item :: it => Some (scan item it)
  end.

Definition no_nan (l : list A) : Prop :=
  forall c, In c l -> PyFloat.is_nan (key c) = false.

(** [s] is the first item of [l] whose key is maximal: the items
    before it are strictly below, no item after it is above. *)
Definition first_maximum (l : list A) (s : A) : Prop :=
  exists l1 l2,
    l = l1 ++ s :: l2 /\
    (forall c, In c l1 -> PyFloat.ltb (key c) (key s) = true) /\
    (forall c, In c l2 -> PyFloat.gtb (key c) (key s) = false).

End Selection.

(** ** The five ways a run can go

    The values that flow between the stages, and the trace of each
    segment of the procedure, written out so that a run can be compared
    with them. *)

Section Runs.
Context {image : Type}.
Variable L : library image.

Definition image_path : string := askopenfilename L.

Definition edges_of (img : image) : image :=
  Canny L (GaussianBlur L (cvtColor L img COLOR_BGR2GRAY) (7, 7) 0) 30 150.

Definition contours_of (img : image) : list contour :=
  findContours L (edges_of img) RETR_EXTERNAL CHAIN_APPROX_SIMPLE.

Definition largest_contour (img : image) : option contour :=
  first_max (contourArea L) (contours_of img).

(** The value the script binds to [axis_ratio] (lines 94-99). *)
Definition axis_ratio (e : ellipse) : float :=
  let '(major_axis, minor_axis) := axes e in
  if PyFloat.eqb (PyFloat.min major_axis minor_axis) (PyFloat.of_int 0)
  then PyFloat.inf
  else SFdiv PyFloat.prec PyFloat.emax
         (PyFloat.max major_axis minor_axis) (PyFloat.min major_axis minor_axis).

Definition degenerate (e : ellipse) : bool :=
  PyFloat.eqb (PyFloat.min (fst (axes e)) (snd (axes e))) (PyFloat.of_int 0).

Definition t_dialog : trace image :=
  [tk_Tk; root_withdraw;
   filedialog_askopenfilename "Select an Eye Image"
     [("Image files", "*.jpg *.jpeg *.png *.bmp *.tiff"); ("All files", "*.*")]].

Definition t_load : trace image :=
  [os_path_basename image_path;
   py_print (msg_selected (basename L image_path));
   cv2_imread image_path].

Definition t_stages (img : image) : trace image :=
  [cv2_cvtColor img COLOR_BGR2GRAY;
   cv2_GaussianBlur (cvtColor L img COLOR_BGR2GRAY) (7, 7) 0;
   cv2_Canny (GaussianBlur L (cvtColor L img COLOR_BGR2GRAY) (7, 7) 0) 30 150;
   cv2_findContours (edges_of img) RETR_EXTERNAL CHAIN_APPROX_SIMPLE].

Definition t_no_contours (img : image) : trace image :=
  [py_print msg_no_contours;
   plt_figure (8, 6);
   cv2_cvtColor img COLOR_BGR2RGB;
   plt_imshow (cvtColor L img COLOR_BGR2RGB) None;
   plt_title "Original Image (No Contours Found)";
   plt_axis "off";
   plt_show].

Definition t_select (img : image) : trace image :=
  map cv2_contourArea (contours_of img).

Definition t_not_enough_points (img : image) : trace image :=
  [py_print msg_not_enough_points;
   plt_figure (8, 6);
   plt_imshow (edges_of img) (Some "gray");
   plt_title "Edges Detected (Insufficient Points for Ellipse Fit)";
   plt_axis "off";
   plt_show].

Definition t_fit (img : image) (c : contour) : trace image :=
  [cv2_fitEllipse c;
   ndarray_copy img;
   cv2_ellipse img (fitEllipse L c) (0, 255, 0) 2].

Definition t_warning (e : ellipse) : trace image :=
  if degenerate e then [py_print msg_minor_zero] else [].

Definition t_metrics (e : ellipse) : trace image :=
  [py_print msg_results_header;
   py_print [Lit "Center of Ellipse: ("; Fmt_2f (fst (center e)); Lit ", ";
             Fmt_2f (snd (center e)); Lit ")"];
   py_print [Lit "Major Axis Length: "; Fmt_2f (fst (axes e)); Lit " pixels"];
   py_print [Lit "Minor Axis Length: "; Fmt_2f (snd (axes e)); Lit " pixels"];
   py_print [Lit "Orientation Angle: "; Fmt_2f (angle e); Lit " degrees"];
   py_print [Lit "Axis Ratio (Major/Minor): "; Fmt_2f (axis_ratio e)]].

Definition t_interpret (r : float) : trace image :=
  if PyFloat.gtb r PyFloat.lit_1_1
  then [py_print msg_possible; py_print msg_elliptical]
  else [py_print msg_no_significant; py_print msg_spherical].

Definition t_show (img : image) (e : ellipse) : trace image :=
  [py_print msg_footer;
   plt_figure (10, 8);
   cv2_cvtColor (draw_ellipse L img e (0, 255, 0) 2) COLOR_BGR2RGB;
   plt_imshow (cvtColor L (draw_ellipse L img e (0, 255, 0) 2) COLOR_BGR2RGB) None;
   plt_title "Ellipse Fit of Cornea";
   plt_axis "off";
   plt_show].

Definition t_report (img : image) (c : contour) : trace image :=
  let e := fitEllipse L c in
  t_fit img c ++ t_warning e ++ t_metrics e ++ t_interpret (axis_ratio e) ++ t_show img e.

(** The conditions under which each branch is taken. *)
Inductive branch : Type :=
| NoSelection
| DecodeFailure
| NoContours (img : image)
| NotEnoughPoints (img : image) (c : contour)
| DrawRejected (img : image) (c : contour)
| Fitted (img : image) (c : contour).

Definition taken (b : branch) : Prop :=
  match b with
  | NoSelection => image_path = ""
  | DecodeFailure => image_path <> "" /\ imread L image_path = None
  | NoContours img =>
      image_path <> "" /\ imread L image_path = Some img /\ contours_of img = []
  | NotEnoughPoints img c =>
      image_path <> "" /\ imread L image_path = Some img /\
      largest_contour img = Some c /\ (List.length c < 5)%nat
  | DrawRejected img c =>
      image_path <> "" /\ imread L image_path = Some img /\
      largest_contour img = Some c /\ (5 <= List.length c)%nat /\
      ellipse_accepts (fitEllipse L c) 2 = false
  | Fitted img c =>
      image_path <> "" /\ imread L image_path = Some img /\
      largest_contour img = Some c /\ (5 <= List.length c)%nat /\
      ellipse_accepts (fitEllipse L c) 2 = true
  end.

Definition run_of (b : branch) : M image unit :=
  match b with
  | NoSelection => (t_dialog ++ [py_print msg_no_selection], Returned)
  | DecodeFailure =>
      (t_dialog ++ t_load ++ [py_print (msg_load_error image_path)], Returned)
  | NoContours img =>
      (t_dialog ++ t_load ++ t_stages img ++ t_no_contours img, Returned)
  | NotEnoughPoints img c =>
      (t_dialog ++ t_load ++ t_stages img ++ t_select img ++ t_not_enough_points img,
       Returned)
  | DrawRejected img c =>
      (t_dialog ++ t_load ++ t_stages img ++ t_select img ++ t_fit img c,
       Raised cv2_error)
  | Fitted img c =>
      (t_dialog ++ t_load ++ t_stages img ++ t_select img ++ t_report img c,
       Normal tt)
  end.

(** What follows the decoding in the trace of a branch. *)
Definition after_load (b : branch) : trace image :=
  match b with
  | NoSelection | DecodeFailure => []
  | NoContours img => t_stages img ++ t_no_contours img
  | NotEnoughPoints img c =>
      t_stages img ++ t_select img ++ t_not_enough_points img
  | DrawRejected img c => t_stages img ++ t_select img ++ t_fit img c
  | Fitted img c => t_stages img ++ t_select img ++ t_report img c
  end.

End Runs.

(** ** Lines of the report and diagnostics of the procedure *)

Definition line_center (x y : float) : fstring :=
  [Lit "Center of Ellipse: ("; Fmt_2f x; Lit ", "; Fmt_2f y; Lit ")"].
Definition line_major (major_axis : float) : fstring :=
  [Lit "Major Axis Length: "; Fmt_2f major_axis; Lit " pixels"].
Definition line_minor (minor_axis : float) : fstring :=
  [Lit "Minor Axis Length: "; Fmt_2f minor_axis; Lit " pixels"].
Definition line_angle (angle : float) : fstring :=
  [Lit "Orientation Angle: "; Fmt_2f angle; Lit " degrees"].
Definition line_ratio (axis_ratio : float) : fstring :=
  [Lit "Axis Ratio (Major/Minor): "; Fmt_2f axis_ratio].

(** The four diagnostics that are followed by [return]. *)
Definition fatal_diagnostic (image_path : string) (m : fstring) : Prop :=
  m = msg_no_selection \/ m = msg_load_error image_path \/
  m = msg_no_contours \/ m = msg_not_enough_points.

(** The calls that belong to the image pipeline proper. *)
Definition pipeline_stage {image : Type} (c : call image) : bool :=
  match c with
  | cv2_imread _ | cv2_cvtColor _ _ | cv2_GaussianBlur _ _ _ | cv2_Canny _ _ _
  | cv2_findContours _ _ _ | cv2_contourArea _ | cv2_fitEllipse _
  | ndarray_copy _ | cv2_ellipse _ _ _ _ => true
  | _ => false
  end.

(** What a run wrote to the console, in order. *)
Fixpoint printed {image : Type} (t : trace image) : list fstring :=
  match t with
  | [] => []
  | py_print s :: t' => s :: printed t'
  | _ :: t' => printed t'
  end.

(** What a run handed to [plt.imshow], in order. *)
Fixpoint displayed {image : Type} (t : trace image) : list (image * option string) :=
  match t with
  | [] => []
  | plt_imshow X cmap :: t' => (X, cmap) :: displayed t'
  | _ :: t' => displayed t'
  end.

(** How many times a run called [plt.show]. *)
Fixpoint shown {image : Type} (t : trace image) : nat :=
  match t with
  | [] => 0
  | plt_show :: t' => S (shown t')
  | _ :: t' => shown t'
  end.

(** Two libraries whose processing functions agree everywhere (the
    same OpenCV); the dialog's answer, the file names and the decoder
    may differ. *)
Definition same_stages {image : Type} (L1 L2 : library image) : Prop :=
  (forall i c, cvtColor L1 i c = cvtColor L2 i c) /\
  (forall i k sg, GaussianBlur L1 i k sg = GaussianBlur L2 i k sg) /\
  (forall i lo hi, Canny L1 i lo hi = Canny L2 i lo hi) /\
  (forall i md mt, findContours L1 i md mt = findContours L2 i md mt) /\
  (forall c, contourArea L1 c = contourArea L2 c) /\
  (forall c, fitEllipse L1 c = fitEllipse L2 c) /\
  (forall i e col th, draw_ellipse L1 i e col th = draw_ellipse L2 i e col th).

(** ** A small library to run the procedure on

    Rasters are named by the file they were decoded from, followed by
    the operations applied to them.  The contours and the fitted ellipse
    are given; the area is the shoelace area of the integer points. *)

Module Sample.

Definition image : Type := list string.

Fixpoint basename_from (acc p : string) : string :=
  match p with
  | EmptyString => acc
  | String a rest =>
      if Ascii.eqb a "/"%char
      then basename_from EmptyString rest
      else basename_from (acc ++ String a EmptyString)%string rest
  end.

Fixpoint cross_sum (prev : point) (c : contour) : Z :=
  match c with
  | [] => 0
  | p :: rest => fst prev * snd p - fst p * snd prev + cross_sum p rest
  end.

Definition area (c : contour) : float :=
  SFdiv PyFloat.prec PyFloat.emax
    (PyFloat.of_int (Z.abs (cross_sum (last c (0, 0)) c))) (PyFloat.of_int 2).

Definition lib (reply : string) (readable : bool) (contours : list contour)
    (fit : ellipse) : library image :=
  {| askopenfilename := reply;
     basename := basename_from EmptyString;
     imread p := if readable then Some [p] else None;
     cvtColor i code :=
       i ++ [match code with COLOR_BGR2GRAY => "gray" | COLOR_BGR2RGB => "rgb" end];
     GaussianBlur i _ _ := i ++ ["blur"];
     Canny i _ _ := i ++ ["canny"];
     findContours _ _ _ := contours;
     contourArea := area;
     fitEllipse _ := fit;
     draw_ellipse i _ _ _ := i ++ ["ellipse"] |}.

(** A square of four points and area 100. *)
Definition square : contour := [(0, 0); (10, 0); (10, 10); (0, 10)].
(** Eight points around an area of 4. *)
Definition ring : contour :=
  [(0, 0); (1, 0); (2, 0); (2, 1); (2, 2); (1, 2); (0, 2); (0, 1)].
(** Six points around an area of 600. *)
Definition hexagon : contour :=
  [(0, 0); (20, 0); (30, 10); (20, 20); (0, 20); (-10, 10)].
(** Six points, area 600 as well, extracted after [hexagon]. *)
Definition hexagon' : contour :=
  [(100, 0); (120, 0); (130, 10); (120, 20); (100, 20); (90, 10)].

Definition fit_of (major_axis minor_axis : float) : ellipse :=
  {| center := (PyFloat.of_int 50, PyFloat.of_int 40);
     axes := (major_axis, minor_axis);
     angle := PyFloat.of_int 90 |}.

Definition eye : string := "/home/user/eye.png".

(** The same file under another path: the decoder gives the raster
    of the original, the processing functions are unchanged. *)
Definition copied_to (reply : string) (L : library image) : library image :=
  {| askopenfilename := reply;
     basename := basename L;
     imread _ := imread L (askopenfilename L);
     cvtColor := cvtColor L;
     GaussianBlur := GaussianBlur L;
     Canny := Canny L;
     findContours := findContours L;
     contourArea := contourArea L;
     fitEllipse := fitEllipse L;
     draw_ellipse := draw_ellipse L |}.

End Sample.

(** ** Order facts on binary64 values *)

Module FloatOrder.

Lemma compare_cont_Eq (m1 m2 : positive) :
  Pos.compare_cont Eq m1 m2 = Pos.compare m1 m2.
Proof. reflexivity. Qed.

Ltac cmp_cases :=
  repeat match goal with
  | |- context [Z.compare ?a ?b] => destruct (Z.compare_spec a b)
  | |- context [Pos.compare ?a ?b] => destruct (Pos.compare_spec a b)
  | H : context [Z.compare ?a ?b] |- _ => destruct (Z.compare_spec a b)
  | H : context [Pos.compare ?a ?b] |- _ => destruct (Pos.compare_spec a b)
  end.

Ltac by_cases a b c :=
  destruct a as [[]|[]| |[] ? ?], b as [[]|[]| |[] ? ?], c as [[]|[]| |[] ? ?];
  simpl; intros; try discriminate; try reflexivity;
  rewrite ?compare_cont_Eq in *; cmp_cases; simpl in *;
  try discriminate; try reflexivity; try lia.

Ltac by_cases2 a b :=
  destruct a as [[]|[]| |[] ? ?], b as [[]|[]| |[] ? ?];
  simpl; intros; try discriminate; try reflexivity;
  rewrite ?compare_cont_Eq in *; cmp_cases; simpl in *;
  try discriminate; try reflexivity; try lia.

(** [b] is not above [a] and [a] is below [c]: then [b] is below [c]. *)
Lemma ltb_below (a b c : float) :
  PyFloat.is_nan b = false ->
  PyFloat.ltb a b = false -> PyFloat.ltb a c = true -> PyFloat.ltb b c = true.
Proof. unfold PyFloat.ltb, SFltb. by_cases a b c. Qed.

Lemma ltb_asym (a b : float) :
  PyFloat.ltb a b = true -> PyFloat.ltb b a = false.
Proof. unfold PyFloat.ltb, SFltb. by_cases2 a b. Qed.

Lemma not_ltb_leb (a b : float) :
  PyFloat.is_nan a = false -> PyFloat.is_nan b = false ->
  PyFloat.ltb a b = false -> PyFloat.leb b a = true.
Proof. unfold PyFloat.ltb, PyFloat.leb, SFltb, SFleb. by_cases2 a b. Qed.

Lemma ltb_leb (a b : float) :
  PyFloat.ltb a b = true -> PyFloat.leb a b = true.
Proof.
  unfold PyFloat.ltb, PyFloat.leb, SFltb, SFleb.
  destruct (SFcompare a b) as [[]|]; intros; try discriminate; reflexivity.
Qed.

Lemma leb_refl (a : float) : PyFloat.is_nan a = false -> PyFloat.leb a a = true.
Proof.
  unfold PyFloat.leb, SFleb.
  destruct a as [[]|[]| |[] m e]; simpl; intros; try discriminate; try reflexivity;
    rewrite compare_cont_Eq, Z.compare_refl, Pos.compare_refl; reflexivity.
Qed.

(** A float compares equal to the integer [0] exactly when it is a
    zero of either sign. *)
Lemma eqb_zero (a : float) :
  PyFloat.eqb a (PyFloat.of_int 0) = true <-> exists s, a = S754_zero s.
Proof.
  unfold PyFloat.eqb, SFeqb; split.
  - destruct a as [s|[]| |[] m e]; simpl; intros; try discriminate; eauto.
  - intros [s ->]; reflexivity.
Qed.

End FloatOrder.

(** ** The selection is the first maximum *)

Section SelectionFacts.
Context {A : Type}.
Variable key : A -> float.

Lemma scan_invariant (it : list A) :
  forall pre m mid,
    no_nan key (pre ++ m :: mid ++ it) ->
    (forall c, In c pre -> PyFloat.ltb (key c) (key m) = true) ->
    (forall c, In c mid -> PyFloat.gtb (key c) (key m) = false) ->
    first_maximum key (pre ++ m :: mid ++ it) (scan key m it).
Proof.
  induction it as [|x it IH]; intros pre m mid Hn Hpre Hmid; simpl.
  - exists pre, mid. rewrite app_nil_r. auto.
  - destruct (PyFloat.gtb (key x) (key m)) eqn:Hx.
    + replace (pre ++ m :: mid ++ x :: it)
        with ((pre ++ m :: mid) ++ x :: [] ++ it) in *
        by (rewrite <- app_assoc; reflexivity).
      apply IH; auto.
      * intros c Hc. apply in_app_or in Hc as [Hc | [<- | Hc]].
        -- apply FloatOrder.ltb_below with (a := key m); auto.
           ++ apply Hn. apply in_or_app. left. apply in_or_app. now left.
           ++ apply FloatOrder.ltb_asym. now apply Hpre.
        -- exact Hx.
        -- apply FloatOrder.ltb_below with (a := key m); auto.
           ++ apply Hn. apply in_or_app. left. apply in_or_app. right. now right.
           ++ now apply Hmid.
      * intros c [].
    + replace (pre ++ m :: mid ++ x :: it)
        with (pre ++ m :: (mid ++ [x]) ++ it) in *
        by (rewrite <- app_assoc; reflexivity).
      apply IH; auto.
      intros c Hc. apply in_app_or in Hc as [Hc | [<- | []]]; auto.
Qed.

Lemma first_max_is_first_maximum (l : list A) :
  l <> [] -> no_nan key l ->
  exists s, first_max key l = Some s /\ first_maximum key l s.
Proof.
  destruct l as [|x it]; [congruence|]. intros _ Hn.
  exists (scan key x it). split; [reflexivity|].
  apply (scan_invariant it [] x []); simpl; auto; intros c [].
Qed.

(** Among keys that are numbers, the first maximum is an upper bound
    of every key in the list. *)
Lemma first_maximum_upper_bound (l : list A) (s : A) :
  no_nan key l -> first_maximum key l s ->
  In s l /\ forall c, In c l -> PyFloat.leb (key c) (key s) = true.
Proof.
  intros Hn (l1 & l2 & -> & H1 & H2). split.
  - apply in_or_app. right. now left.
  - intros c Hc.
    assert (Hs : PyFloat.is_nan (key s) = false)
      by (apply Hn, in_or_app; right; now left).
    apply in_app_or in Hc as [Hc | [<- | Hc]].
    + apply FloatOrder.ltb_leb. now apply H1.
    + now apply FloatOrder.leb_refl.
    + apply FloatOrder.not_ltb_leb; auto.
      * apply Hn, in_or_app. right. now right.
      * now apply H2.
Qed.

End SelectionFacts.

Section PyMaxFacts.
Context {image : Type}.
Variable L : library image.

(** [py_max] with the logging key: one [cv2.contourArea] call per
    contour, in order, and the item [scan] computes. *)
Lemma max_loop_contourArea (it : list contour) :
  forall m,
    max_loop (call_contourArea L) m (contourArea L m) it
    = (map cv2_contourArea it, Normal (scan (contourArea L) m it)).
Proof.
  induction it as [|x it IH]; intros m; simpl; [reflexivity|].
  destruct (PyFloat.gtb (contourArea L x) (contourArea L m));
    rewrite IH; reflexivity.
Qed.

Lemma py_max_contourArea (c0 : contour) (cs : list contour) :
  py_max (call_contourArea L) (c0 :: cs)
  = (map cv2_contourArea (c0 :: cs), Normal (scan (contourArea L) c0 cs)).
Proof. simpl. rewrite max_loop_contourArea. reflexivity. Qed.

End PyMaxFacts.

(** ** Symbolic execution of the procedure *)

Section Execution.
Context {image : Type}.
Variable L : library image.

Lemma truthy_nonempty (s : string) : truthy s = true <-> s <> "".
Proof. destruct s; simpl; split; congruence. Qed.

(** Lines 94-99 never raise: the quotient is only taken when the
    divisor does not compare equal to zero. *)
Lemma compute_axis_ratio_run (e : ellipse) :
  compute_axis_ratio (image := image) (fst (axes e)) (snd (axes e))
  = (t_warning e, Normal (axis_ratio e)).
Proof.
  unfold compute_axis_ratio, t_warning, axis_ratio, degenerate, PyFloat.truediv.
  destruct (axes e) as [major_axis minor_axis]; simpl.
  destruct (PyFloat.eqb (PyFloat.min major_axis minor_axis) _); reflexivity.
Qed.

Lemma interpret_run (r : float) :
  interpret (image := image) r = (t_interpret r, Normal tt).
Proof.
  unfold interpret, t_interpret.
  destruct (PyFloat.gtb r PyFloat.lit_1_1); reflexivity.
Qed.

Lemma largest_contour_cons (img : image) (c : contour) :
  largest_contour L img = Some c ->
  exists c0 cs, contours_of L img = c0 :: cs /\ c = scan (contourArea L) c0 cs.
Proof.
  unfold largest_contour, first_max.
  destruct (contours_of L img) as [|c0 cs]; [discriminate|].
  intros [= <-]. eauto.
Qed.

Arguments compute_axis_ratio : simpl never.
Arguments interpret : simpl never.

Theorem run_taken (b : branch) :
  taken L b -> analyze_astigmatism L = run_of L b.
Proof.
  destruct b as [| |img|img c|img c|img c]; unfold taken, image_path; simpl.
  - intros H. unfold analyze_astigmatism. rewrite H. reflexivity.
  - intros [Hp Hi]. unfold analyze_astigmatism, t_load, image_path.
    apply truthy_nonempty in Hp.
    simpl. rewrite Hp. simpl. rewrite Hi. reflexivity.
  - intros (Hp & Hi & Hc). unfold analyze_astigmatism, t_load, image_path.
    apply truthy_nonempty in Hp.
    simpl. rewrite Hp. simpl. rewrite Hi. simpl.
    fold (edges_of L img). fold (contours_of L img). rewrite Hc. reflexivity.
  - intros (Hp & Hi & Hc & Hn). unfold analyze_astigmatism, t_load, image_path.
    apply truthy_nonempty in Hp.
    destruct (largest_contour_cons img c Hc) as (c0 & cs & Hcs & ->).
    simpl. rewrite Hp. simpl. rewrite Hi. simpl.
    fold (edges_of L img). fold (contours_of L img). unfold t_select. rewrite Hcs.
    simpl. rewrite max_loop_contourArea. simpl.
    replace (Z.of_nat (List.length (scan (contourArea L) c0 cs)) <? 5) with true
      by (symmetry; apply Z.ltb_lt; lia).
    reflexivity.
  - intros (Hp & Hi & Hc & Hn & Ha). unfold analyze_astigmatism, t_load, image_path.
    apply truthy_nonempty in Hp.
    destruct (largest_contour_cons img c Hc) as (c0 & cs & Hcs & ->).
    simpl. rewrite Hp. simpl. rewrite Hi. simpl.
    fold (edges_of L img). fold (contours_of L img). unfold t_select. rewrite Hcs.
    simpl. rewrite max_loop_contourArea. simpl.
    replace (Z.of_nat (List.length (scan (contourArea L) c0 cs)) <? 5) with false
      by (symmetry; apply Z.ltb_ge; lia).
    simpl. unfold t_fit. rewrite Ha. simpl.
    destruct (fitEllipse L (scan (contourArea L) c0 cs)) as [[x y] [major_axis minor_axis] an].
    reflexivity.
  - intros (Hp & Hi & Hc & Hn & Ha). unfold analyze_astigmatism, t_load, image_path.
    apply truthy_nonempty in Hp.
    destruct (largest_contour_cons img c Hc) as (c0 & cs & Hcs & ->).
    simpl. rewrite Hp. simpl. rewrite Hi. simpl.
    fold (edges_of L img). fold (contours_of L img). unfold t_select. rewrite Hcs.
    simpl. rewrite max_loop_contourArea. simpl.
    replace (Z.of_nat (List.length (scan (contourArea L) c0 cs)) <? 5) with false
      by (symmetry; apply Z.ltb_ge; lia).
    simpl. rewrite Ha. simpl. unfold t_report, t_fit, t_metrics, t_show.
    pose proof (compute_axis_ratio_run (fitEllipse L (scan (contourArea L) c0 cs))) as Hr.
    destruct (fitEllipse L (scan (contourArea L) c0 cs)) as [[x y] [major_axis minor_axis] an].
    simpl in *. rewrite Hr. simpl. rewrite interpret_run. simpl.
    reflexivity.
Qed.

(** Exactly the guards of the procedure decide the branch, and one of
    them always applies. *)
Lemma some_branch_taken : exists b, taken L b.
Proof.
  destruct (string_dec (image_path L) "") as [Hp|Hp].
  { exists NoSelection. exact Hp. }
  destruct (imread L (image_path L)) as [img|] eqn:Hi.
  2:{ exists DecodeFailure. split; assumption. }
  destruct (largest_contour L img) as [c|] eqn:Hc.
  - destruct (le_lt_dec 5 (List.length c)) as [Hn|Hn].
    + destruct (ellipse_accepts (fitEllipse L c) 2) eqn:Ha.
      * exists (Fitted img c). repeat split; assumption.
      * exists (DrawRejected img c). repeat split; assumption.
    + exists (NotEnoughPoints img c). repeat split; assumption.
  - exists (NoContours img). repeat split; try assumption.
    unfold largest_contour, first_max in Hc.
    destruct (contours_of L img); [reflexivity | discriminate].
Qed.

Lemma analyze_cases :
  exists b, taken L b /\ analyze_astigmatism L = run_of L b.
Proof.
  destruct some_branch_taken as [b Hb].
  exists b. split; [exact Hb | now apply run_taken].
Qed.

End Execution.

(** ** Reading the trace of a run *)

Ltac split_in H :=
  repeat first
    [ rewrite in_app_iff in H
    | rewrite in_map_iff in H
    | progress simpl in H
    | match type of H with
      | _ \/ _ => destruct H as [H|H]
      | False => contradiction
      | ex _ => destruct H as [? [H ?]]
      end ];
  try discriminate H.

Lemma last_app_cons {A : Type} (l1 : list A) (x : A) (l2 : list A) (d : A) :
  last (l1 ++ x :: l2) d = last (x :: l2) d.
Proof.
  induction l1 as [|a l1 IH]; [reflexivity|].
  change (last (a :: (l1 ++ x :: l2)) d = last (x :: l2) d).
  destruct (l1 ++ x :: l2) eqn:E; [destruct l1; discriminate|].
  exact IH.
Qed.

Section TraceFacts.
Context {image : Type}.
Variable L : library image.

(** A [cv2.fitEllipse] call occurs only after the eligibility check,
    on the contour that was selected. *)
Lemma fit_call_inversion (c : contour) :
  In (cv2_fitEllipse c) (calls (analyze_astigmatism L)) ->
  exists img,
    image_path L <> "" /\ imread L (image_path L) = Some img /\
    largest_contour L img = Some c /\ (5 <= List.length c)%nat.
Proof.
  destruct (analyze_cases L) as (b & Hb & ->).
  destruct b as [| |img|img c'|img c'|img c']; unfold calls; simpl fst;
    unfold t_dialog, t_load, t_stages, t_no_contours, t_select,
      t_not_enough_points, t_report, t_fit, t_metrics, t_show, t_warning, t_interpret;
    intros H.
  - split_in H.
  - split_in H.
  - split_in H.
  - split_in H.
  - split_in H; injection H as <-. exists img. simpl in Hb. tauto.
  - destruct (degenerate (fitEllipse L c')),
      (PyFloat.gtb (axis_ratio (fitEllipse L c')) PyFloat.lit_1_1);
      split_in H; injection H as <-; exists img; simpl in Hb; tauto.
Qed.

(** Conversely, a run that passes the eligibility check calls the
    fitter on the selected contour. *)
Lemma fit_call_reached (img : image) (c : contour) :
  image_path L <> "" -> imread L (image_path L) = Some img ->
  largest_contour L img = Some c -> (5 <= List.length c)%nat ->
  In (cv2_fitEllipse c) (calls (analyze_astigmatism L)).
Proof.
  intros Hp Hi Hc Hn.
  destruct (ellipse_accepts (fitEllipse L c) 2) eqn:Ha.
  - rewrite (run_taken L (Fitted img c)) by (repeat split; assumption).
    cbn [calls run_of fst]. unfold t_report, t_fit.
    rewrite !in_app_iff. do 4 right. left. now left.
  - rewrite (run_taken L (DrawRejected img c)) by (repeat split; assumption).
    cbn [calls run_of fst]. unfold t_fit.
    rewrite !in_app_iff. do 4 right. now left.
Qed.

(** When the drawing accepts the fitted box, the run is in the last
    branch. *)
Lemma fitted_inversion (c : contour) :
  In (cv2_fitEllipse c) (calls (analyze_astigmatism L)) ->
  ellipse_accepts (fitEllipse L c) 2 = true ->
  exists img, taken L (Fitted img c).
Proof.
  intros H Ha. destruct (fit_call_inversion c H) as (img & Hp & Hi & Hc & Hn).
  exists img. repeat split; assumption.
Qed.

Lemma printed_app (t1 t2 : trace image) :
  printed (t1 ++ t2) = printed t1 ++ printed t2.
Proof.
  induction t1 as [|c t1 IH]; simpl; [reflexivity|].
  destruct c; simpl; rewrite ?IH; reflexivity.
Qed.

Lemma printed_contourArea (l : list contour) :
  printed (map (cv2_contourArea (image := image)) l) = [].
Proof. induction l; simpl; auto. Qed.

Lemma displayed_app (t1 t2 : trace image) :
  displayed (t1 ++ t2) = displayed t1 ++ displayed t2.
Proof.
  induction t1 as [|c t1 IH]; simpl; [reflexivity|].
  destruct c; simpl; rewrite ?IH; reflexivity.
Qed.

Lemma displayed_contourArea (l : list contour) :
  displayed (map (cv2_contourArea (image := image)) l) = [].
Proof. induction l; simpl; auto. Qed.

Lemma In_printed (t : trace image) (m : fstring) :
  In m (printed t) <-> In (py_print m) t.
Proof.
  induction t as [|c t IH]; simpl; [tauto|].
  destruct c; simpl; rewrite IH; split; intros H;
    try (now right); try (destruct H as [H|H]; [discriminate H | exact H]).
  - destruct H as [<-|H]; auto.
  - destruct H as [[= <-]|H]; auto.
Qed.

(** The expression [max(contours, key=cv2.contourArea)] of line 70
    evaluates to [c] exactly when [c] is the [largest_contour]. *)
Lemma py_max_largest (img : image) (c : contour) :
  outcome (py_max (call_contourArea L) (contours_of L img)) = Normal c <->
  largest_contour L img = Some c.
Proof.
  unfold largest_contour, first_max, outcome.
  destruct (contours_of L img) as [|c0 cs].
  - simpl. split; discriminate.
  - rewrite py_max_contourArea. simpl. split; intros [= <-]; reflexivity.
Qed.

(** The console output of a run that fits an ellipse. *)
Lemma printed_fitted (img : image) (c : contour) :
  taken L (Fitted img c) ->
  let e := fitEllipse L c in
  printed (calls (analyze_astigmatism L)) =
    msg_selected (basename L (askopenfilename L))
    :: (if degenerate e then [msg_minor_zero] else [])
    ++ [msg_results_header;
        line_center (fst (center e)) (snd (center e));
        line_major (fst (axes e));
        line_minor (snd (axes e));
        line_angle (angle e);
        line_ratio (axis_ratio e)]
    ++ (if PyFloat.gtb (axis_ratio e) PyFloat.lit_1_1
        then [msg_possible; msg_elliptical]
        else [msg_no_significant; msg_spherical])
    ++ [msg_footer].
Proof.
  intros Hb e. rewrite (run_taken L _ Hb). cbn [calls run_of fst].
  unfold t_report, t_warning, t_interpret, t_select. fold e.
  rewrite !printed_app, printed_contourArea.
  destruct (degenerate e), (PyFloat.gtb (axis_ratio e) PyFloat.lit_1_1);
    reflexivity.
Qed.

End TraceFacts.

(** ** The guards at the head of the procedure *)

(** C9. When the file dialog is dismissed (it answers the empty
    string), the run consists of the two tkinter calls, the dialog and
    one [print] of exactly "No image selected. Exiting."; it then
    returns, so no pipeline stage is called. *)
Theorem empty_selection_returns {image : Type} (L : library image) :
  askopenfilename L = "" ->
  analyze_astigmatism L =
    ([tk_Tk; root_withdraw;
      filedialog_askopenfilename "Select an Eye Image"
        [("Image files", "*.jpg *.jpeg *.png *.bmp *.tiff"); ("All files", "*.*")];
      py_print [Lit "No image selected. Exiting."]],
     Returned) /\
  printed (calls (analyze_astigmatism L)) = [[Lit "No image selected. Exiting."]] /\
  filter pipeline_stage (calls (analyze_astigmatism L)) = [].
Proof.
  intros H.
  rewrite (run_taken L NoSelection H). repeat split; reflexivity.
Qed.

Lemma empty_selection_returns_witness :
  printed (calls (analyze_astigmatism
    (Sample.lib "" true [Sample.hexagon]
       (Sample.fit_of (PyFloat.of_int 30) (PyFloat.of_int 50)))))
  = [[Lit "No image selected. Exiting."]].
Proof.
  apply (empty_selection_returns
           (Sample.lib "" true [Sample.hexagon]
              (Sample.fit_of (PyFloat.of_int 30) (PyFloat.of_int 50)))).
  reflexivity.
Defined.

(** C8. When the selected path does not decode ([cv2.imread] gives
    [None]), the run prints the name of the file, calls the decoder,
    prints the load error with the path in it and returns: the decoder
    is the only pipeline call of the run. *)
Theorem unreadable_file_returns {image : Type} (L : library image) :
  askopenfilename L <> "" ->
  imread L (askopenfilename L) = None ->
  let image_path := askopenfilename L in
  analyze_astigmatism L =
    ([tk_Tk; root_withdraw;
      filedialog_askopenfilename "Select an Eye Image"
        [("Image files", "*.jpg *.jpeg *.png *.bmp *.tiff"); ("All files", "*.*")];
      os_path_basename image_path;
      py_print [Lit "Selected image: "; Fmt_s (basename L image_path)];
      cv2_imread image_path;
      py_print [Lit "Error: Could not load image from '"; Fmt_s image_path;
                Lit "'. Please check if the file exists and is a valid image format."]],
     Returned) /\
  filter pipeline_stage (calls (analyze_astigmatism L)) = [cv2_imread image_path].
Proof.
  intros Hp Hi image_path.
  rewrite (run_taken L DecodeFailure (conj Hp Hi)). split; reflexivity.
Qed.

Lemma unreadable_file_returns_witness :
  filter pipeline_stage (calls (analyze_astigmatism
    (Sample.lib Sample.eye false [Sample.hexagon]
       (Sample.fit_of (PyFloat.of_int 30) (PyFloat.of_int 50)))))
  = [cv2_imread Sample.eye].
Proof.
  apply (unreadable_file_returns
           (Sample.lib Sample.eye false [Sample.hexagon]
              (Sample.fit_of (PyFloat.of_int 30) (PyFloat.of_int 50)))).
  - discriminate.
  - reflexivity.
Defined.

(** C7. When [cv2.findContours] gives no contour, the run prints the
    "No contours found" message, shows the decoded image (converted
    from BGR to RGB for display, not the edge map) and returns: it ends
    by [return], not by an exception, and after [cv2.findContours] the
    only library call is that display conversion - no area, fit or
    drawing call. *)
Theorem no_contours_returns {image : Type} (L : library image) (img : image) :
  askopenfilename L <> "" ->
  imread L (askopenfilename L) = Some img ->
  findContours L
    (Canny L (GaussianBlur L (cvtColor L img COLOR_BGR2GRAY) (7, 7) 0) 30 150)
    RETR_EXTERNAL CHAIN_APPROX_SIMPLE = [] ->
  let image_path := askopenfilename L in
  let gray := cvtColor L img COLOR_BGR2GRAY in
  let blurred := GaussianBlur L gray (7, 7) 0 in
  let edges := Canny L blurred 30 150 in
  outcome (analyze_astigmatism L) = Returned /\
  printed (calls (analyze_astigmatism L)) =
    [[Lit "Selected image: "; Fmt_s (basename L image_path)];
     [Lit "No contours found in the image. Ensure the image clearly shows the eye/cornea with good contrast."]] /\
  displayed (calls (analyze_astigmatism L)) = [(cvtColor L img COLOR_BGR2RGB, None)] /\
  filter pipeline_stage (calls (analyze_astigmatism L)) =
    [cv2_imread image_path;
     cv2_cvtColor img COLOR_BGR2GRAY;
     cv2_GaussianBlur gray (7, 7) 0;
     cv2_Canny blurred 30 150;
     cv2_findContours edges RETR_EXTERNAL CHAIN_APPROX_SIMPLE;
     cv2_cvtColor img COLOR_BGR2RGB] /\
  last (calls (analyze_astigmatism L)) tk_Tk = plt_show.
Proof.
  intros Hp Hi Hc image_path gray blurred edges.
  rewrite (run_taken L (NoContours img) (conj Hp (conj Hi Hc))).
  repeat split; reflexivity.
Qed.

Lemma no_contours_returns_witness :
  displayed (calls (analyze_astigmatism
    (Sample.lib Sample.eye true []
       (Sample.fit_of (PyFloat.of_int 30) (PyFloat.of_int 50)))))
  = [([Sample.eye; "rgb"], None)].
Proof.
  apply (no_contours_returns
           (Sample.lib Sample.eye true []
              (Sample.fit_of (PyFloat.of_int 30) (PyFloat.of_int 50)))
           [Sample.eye]).
  - discriminate.
  - reflexivity.
  - reflexivity.
Defined.

(** ** The eligibility check before the fit *)

(** C4. [cv2.fitEllipse] is called only on a contour of at least five
    points, so the call returns the fit and never raises the
    [cv2.error] the fitter has below five points: a run that ends in an
    exception ends in the drawing call after the fit.  When the contour
    that [max] selects has fewer than five points, the run prints the
    "Not enough points" message, shows the edge map with the gray
    colour map and returns without any call of the fitter. *)
Theorem fit_requires_five_points {image : Type} (L : library image) :
  (forall c, In (cv2_fitEllipse c) (calls (analyze_astigmatism L)) ->
             (5 <= List.length c)%nat) /\
  (forall c, In (cv2_fitEllipse c) (calls (analyze_astigmatism L)) ->
             call_fitEllipse L c = ([cv2_fitEllipse c], Normal (fitEllipse L c))) /\
  (forall e, outcome (analyze_astigmatism L) = Raised e ->
             exists img c,
               (5 <= List.length c)%nat /\
               last (calls (analyze_astigmatism L)) tk_Tk
                 = cv2_ellipse img (fitEllipse L c) (0, 255, 0) 2) /\
  (forall img c,
     askopenfilename L <> "" ->
     imread L (askopenfilename L) = Some img ->
     outcome (py_max (call_contourArea L) (contours_of L img)) = Normal c ->
     (List.length c < 5)%nat ->
     outcome (analyze_astigmatism L) = Returned /\
     printed (calls (analyze_astigmatism L)) =
       [[Lit "Selected image: "; Fmt_s (basename L (askopenfilename L))];
        [Lit "Not enough points found in the largest contour to fit an ellipse. The contour might be too small, fragmented, or poorly detected."]] /\
     displayed (calls (analyze_astigmatism L)) = [(edges_of L img, Some "gray")] /\
     last (calls (analyze_astigmatism L)) tk_Tk = plt_show /\
     forall c', ~ In (cv2_fitEllipse c') (calls (analyze_astigmatism L))).
Proof.
  split; [|split; [|split]].
  - intros c H. destruct (fit_call_inversion L c H) as (img & _ & _ & _ & Hn).
    exact Hn.
  - intros c H. destruct (fit_call_inversion L c H) as (img & _ & _ & _ & Hn).
    unfold call_fitEllipse.
    replace (Z.of_nat (List.length c) <? 5) with false
      by (symmetry; apply Z.ltb_ge; lia).
    reflexivity.
  - intros e. destruct (analyze_cases L) as (b & Hb & ->).
    destruct b as [| |img|img c|img c|img c]; try discriminate.
    intros _. exists img, c. split; [apply Hb|].
    cbn [calls run_of fst]. unfold t_fit.
    rewrite !app_assoc, last_app_cons. reflexivity.
  - intros img c Hp Hi Hc Hn.
    apply py_max_largest in Hc.
    assert (Hb : taken L (NotEnoughPoints img c)) by (repeat split; assumption).
    split; [|split; [|split; [|split]]].
    + rewrite (run_taken L _ Hb). reflexivity.
    + rewrite (run_taken L _ Hb). cbn [calls run_of fst]. unfold t_select.
      rewrite !printed_app, printed_contourArea. reflexivity.
    + rewrite (run_taken L _ Hb). cbn [calls run_of fst]. unfold t_select.
      rewrite !displayed_app, displayed_contourArea. reflexivity.
    + rewrite (run_taken L _ Hb). cbn [calls run_of fst].
      unfold t_not_enough_points. rewrite !app_assoc, last_app_cons. reflexivity.
    + intros c' H.
      destruct (fit_call_inversion L c' H) as (img' & _ & Hi' & Hc' & Hn').
      unfold image_path in Hi'. rewrite Hi in Hi'. injection Hi' as <-.
      rewrite Hc in Hc'. injection Hc' as <-. lia.
Qed.

Lemma fit_requires_five_points_witness :
  displayed (calls (analyze_astigmatism
    (Sample.lib Sample.eye true [Sample.ring; Sample.square]
       (Sample.fit_of (PyFloat.of_int 30) (PyFloat.of_int 50)))))
  = [([Sample.eye; "gray"; "blur"; "canny"], Some "gray")].
Proof.
  pose (L := Sample.lib Sample.eye true [Sample.ring; Sample.square]
               (Sample.fit_of (PyFloat.of_int 30) (PyFloat.of_int 50))).
  destruct (fit_requires_five_points L) as (_ & _ & _ & H).
  apply (H [Sample.eye] Sample.square).
  - discriminate.
  - reflexivity.
  - reflexivity.
  - simpl. lia.
Defined.

(** ** The contour that is fitted *)

(** C5. For a non-empty list of extracted contours whose areas are
    numbers, [max(contours, key=cv2.contourArea)] calls the area once
    per contour and yields a contour [c] of the list whose area bounds
    every area of the list, and which is the first such contour: all
    contours extracted before it have a strictly smaller area.  It is
    the only contour a run can hand to the fitter, and the one it does
    hand over when it has five points or more. *)
Theorem largest_contour_is_first_of_maximal_area
    {image : Type} (L : library image) (img : image) :
  askopenfilename L <> "" ->
  imread L (askopenfilename L) = Some img ->
  contours_of L img <> [] ->
  (forall c, In c (contours_of L img) -> PyFloat.is_nan (contourArea L c) = false) ->
  exists c l1 l2,
    py_max (call_contourArea L) (contours_of L img)
      = (map cv2_contourArea (contours_of L img), Normal c) /\
    contours_of L img = l1 ++ c :: l2 /\
    (forall c', In c' (contours_of L img) ->
                PyFloat.leb (contourArea L c') (contourArea L c) = true) /\
    (forall c', In c' l1 ->
                PyFloat.ltb (contourArea L c') (contourArea L c) = true) /\
    (forall c', In (cv2_fitEllipse c') (calls (analyze_astigmatism L)) -> c' = c) /\
    ((5 <= List.length c)%nat ->
     In (cv2_fitEllipse c) (calls (analyze_astigmatism L))).
Proof.
  intros Hp Hi Hne Hn.
  destruct (first_max_is_first_maximum (contourArea L) _ Hne Hn) as (c & Hc & Hfirst).
  destruct (first_maximum_upper_bound (contourArea L) _ c Hn Hfirst) as [_ Hub].
  destruct Hfirst as (l1 & l2 & Hl & Hbefore & _).
  exists c, l1, l2. repeat split; auto.
  - destruct (largest_contour_cons L img c Hc) as (c0 & cs & Hcs & ->).
    rewrite Hcs. apply py_max_contourArea.
  - intros c' H.
    destruct (fit_call_inversion L c' H) as (img' & _ & Hi' & Hc' & _).
    unfold image_path in Hi'. rewrite Hi in Hi'. injection Hi' as <-.
    unfold largest_contour in Hc'. rewrite Hc in Hc'. now injection Hc' as <-.
  - intros H5. now apply (fit_call_reached L img c).
Qed.

(** The square has the larger area and fewer points than the ring; of
    the two hexagons of equal area the one extracted first is taken. *)
Lemma largest_contour_is_first_of_maximal_area_witness :
  exists c l1 l2,
    py_max (call_contourArea
              (Sample.lib Sample.eye true
                 [Sample.ring; Sample.hexagon; Sample.square; Sample.hexagon']
                 (Sample.fit_of (PyFloat.of_int 30) (PyFloat.of_int 50))))
           [Sample.ring; Sample.hexagon; Sample.square; Sample.hexagon']
      = (map cv2_contourArea
           [Sample.ring; Sample.hexagon; Sample.square; Sample.hexagon'],
         Normal c) /\
    [Sample.ring; Sample.hexagon; Sample.square; Sample.hexagon'] = l1 ++ c :: l2.
Proof.
  pose (L := Sample.lib Sample.eye true
               [Sample.ring; Sample.hexagon; Sample.square; Sample.hexagon']
               (Sample.fit_of (PyFloat.of_int 30) (PyFloat.of_int 50))).
  destruct (largest_contour_is_first_of_maximal_area L [Sample.eye])
    as (c & l1 & l2 & H1 & H2 & _).
  - discriminate.
  - reflexivity.
  - discriminate.
  - intros c [<-|[<-|[<-|[<-|[]]]]]; reflexivity.
  - exists c, l1, l2. split; [exact H1 | exact H2].
Defined.

Example sample_selects_first_hexagon :
  outcome (py_max (call_contourArea
             (Sample.lib Sample.eye true
                [Sample.ring; Sample.hexagon; Sample.square; Sample.hexagon']
                (Sample.fit_of (PyFloat.of_int 30) (PyFloat.of_int 50))))
          [Sample.ring; Sample.hexagon; Sample.square; Sample.hexagon'])
  = Normal Sample.hexagon.
Proof. reflexivity. Qed.

Example sample_selects_by_area_not_point_count :
  outcome (py_max (call_contourArea
             (Sample.lib Sample.eye true [Sample.ring; Sample.square]
                (Sample.fit_of (PyFloat.of_int 30) (PyFloat.of_int 50))))
          [Sample.ring; Sample.square])
  = Normal Sample.square /\
  (List.length Sample.square < List.length Sample.ring)%nat.
Proof. split; [reflexivity | simpl; lia]. Qed.

(** ** The ratio, the warning and the interpretation *)

(** The console output of each branch. *)
Lemma printed_run_of {image : Type} (L : library image) (b : branch) :
  printed (calls (run_of L b)) =
  match b with
  | NoSelection => [msg_no_selection]
  | DecodeFailure =>
      [msg_selected (basename L (askopenfilename L));
       msg_load_error (askopenfilename L)]
  | NoContours _ =>
      [msg_selected (basename L (askopenfilename L)); msg_no_contours]
  | NotEnoughPoints _ _ =>
      [msg_selected (basename L (askopenfilename L)); msg_not_enough_points]
  | DrawRejected _ _ => [msg_selected (basename L (askopenfilename L))]
  | Fitted _ c =>
      let e := fitEllipse L c in
      msg_selected (basename L (askopenfilename L))
      :: (if degenerate e then [msg_minor_zero] else [])
      ++ [msg_results_header;
          line_center (fst (center e)) (snd (center e));
          line_major (fst (axes e));
          line_minor (snd (axes e));
          line_angle (angle e);
          line_ratio (axis_ratio e)]
      ++ (if PyFloat.gtb (axis_ratio e) PyFloat.lit_1_1
          then [msg_possible; msg_elliptical]
          else [msg_no_significant; msg_spherical])
      ++ [msg_footer]
  end.
Proof.
  destruct b as [| |img|img c|img c|img c]; cbn [calls run_of fst];
    unfold t_select, t_report, t_warning, t_interpret;
    rewrite ?printed_app, ?printed_contourArea; try reflexivity.
  destruct (degenerate (fitEllipse L c)),
    (PyFloat.gtb (axis_ratio (fitEllipse L c)) PyFloat.lit_1_1); reflexivity.
Qed.

Ltac split_lines H :=
  repeat first
    [ rewrite in_app_iff in H
    | progress simpl in H
    | match type of H with
      | _ \/ _ => destruct H as [H|H]
      | False => contradiction
      end ];
  try discriminate H.

(** C1. In every run that reaches the fit and whose fitted box the
    drawing of line 90 accepts (no length negative or NaN), the ratio
    that is printed is [max(major, minor) / min(major, minor)], a
    division that does not raise, unless [min(major, minor) == 0]: then
    the warning is printed first and the ratio is [float('inf')].
    Either way the run goes on through the results block, the
    interpretation and the footer and ends normally.  The four other
    diagnostics are each followed by [return]: a run that prints one of
    them prints no results. *)
Theorem ratio_and_degenerate_recovery {image : Type} (L : library image) :
  (forall c,
     In (cv2_fitEllipse c) (calls (analyze_astigmatism L)) ->
     ellipse_accepts (fitEllipse L c) 2 = true ->
     let e := fitEllipse L c in
     let major_axis := fst (axes e) in
     let minor_axis := snd (axes e) in
     let lo := PyFloat.min major_axis minor_axis in
     let hi := PyFloat.max major_axis minor_axis in
     exists axis_ratio,
       (if PyFloat.eqb lo (PyFloat.of_int 0)
        then axis_ratio = PyFloat.inf
        else PyFloat.truediv hi lo = Some axis_ratio /\
             axis_ratio = SFdiv PyFloat.prec PyFloat.emax hi lo) /\
       outcome (analyze_astigmatism L) = Normal tt /\
       printed (calls (analyze_astigmatism L)) =
         [Lit "Selected image: "; Fmt_s (basename L (askopenfilename L))]
         :: (if PyFloat.eqb lo (PyFloat.of_int 0) then [msg_minor_zero] else [])
         ++ [msg_results_header;
             line_center (fst (center e)) (snd (center e));
             line_major major_axis;
             line_minor minor_axis;
             line_angle (angle e);
             line_ratio axis_ratio]
         ++ (if PyFloat.gtb axis_ratio PyFloat.lit_1_1
             then [msg_possible; msg_elliptical]
             else [msg_no_significant; msg_spherical])
         ++ [msg_footer]) /\
  (forall m,
     fatal_diagnostic (askopenfilename L) m ->
     In m (printed (calls (analyze_astigmatism L))) ->
     outcome (analyze_astigmatism L) = Returned /\
     ~ In msg_results_header (printed (calls (analyze_astigmatism L)))).
Proof.
  split.
  - intros c H Ha e major_axis minor_axis lo hi.
    destruct (fitted_inversion L c H Ha) as (img & Hb).
    exists (axis_ratio e). split; [|split].
    + unfold axis_ratio, PyFloat.truediv. subst lo hi major_axis minor_axis.
      destruct (axes e) as [ma mi]. cbn [fst snd].
      destruct (PyFloat.eqb (PyFloat.min ma mi) (PyFloat.of_int 0)); auto.
    + rewrite (run_taken L _ Hb). reflexivity.
    + exact (printed_fitted L img c Hb).
  - intros m Hm. destruct (analyze_cases L) as (b & Hb & ->).
    rewrite printed_run_of.
    destruct b as [| |img|img c|img c|img c]; intros H.
    + split; [reflexivity|]. intros H'. split_lines H'.
    + split; [reflexivity|]. intros H'. split_lines H'.
    + split; [reflexivity|]. intros H'. split_lines H'.
    + split; [reflexivity|]. intros H'. split_lines H'.
    + exfalso. destruct Hm as [-> | [-> | [-> | ->]]]; split_lines H.
    + exfalso. cbv zeta in H.
      destruct (degenerate (fitEllipse L c)),
        (PyFloat.gtb (axis_ratio (fitEllipse L c)) PyFloat.lit_1_1);
        destruct Hm as [-> | [-> | [-> | ->]]]; split_lines H.
Qed.

Ltac in_list := simpl; repeat first [left; reflexivity | right].
Ltac in_run := vm_compute; repeat first [left; reflexivity | right].

Lemma ratio_and_degenerate_recovery_witness :
  outcome (analyze_astigmatism
    (Sample.lib Sample.eye true [Sample.hexagon]
       (Sample.fit_of (PyFloat.of_int 0) (PyFloat.of_int 50)))) = Normal tt /\
  outcome (analyze_astigmatism
    (Sample.lib "" true [Sample.hexagon]
       (Sample.fit_of (PyFloat.of_int 0) (PyFloat.of_int 50)))) = Returned.
Proof.
  split.
  - destruct (ratio_and_degenerate_recovery
                (Sample.lib Sample.eye true [Sample.hexagon]
                   (Sample.fit_of (PyFloat.of_int 0) (PyFloat.of_int 50))))
      as [H _].
    destruct (H Sample.hexagon) as (r & _ & Ho & _);
      [in_run | reflexivity | exact Ho].
  - destruct (ratio_and_degenerate_recovery
                (Sample.lib "" true [Sample.hexagon]
                   (Sample.fit_of (PyFloat.of_int 0) (PyFloat.of_int 50))))
      as [_ H].
    destruct (H msg_no_selection) as [Ho _];
      [left; reflexivity | in_run | exact Ho].
Defined.

(** The literal [1.1] is the binary64 value nearest to 11/10: its
    mantissa [m] has 53 bits and [m / 2^52] is within half a unit in
    the last place of 11/10. *)
Lemma lit_1_1_nearest :
  exists m : positive,
    PyFloat.lit_1_1 = S754_finite false m (-52) /\
    2 ^ 52 <= Z.pos m < 2 ^ 53 /\
    2 * Z.abs (10 * Z.pos m - 11 * 2 ^ 52) <= 10.
Proof.
  exists 4953959590107546%positive. split; [reflexivity|]. split; [|lia].
  split; [apply Z.leb_le | apply Z.ltb_lt]; reflexivity.
Qed.

(** C2. The interpretation printed by a run is decided by the test
    [axis_ratio > 1.1] on the ratio it printed: "Possible Astigmatism
    Detected" is printed exactly when the test holds, "No Significant
    Astigmatism" exactly when it does not.  The constant is the literal
    1.1; a ratio equal to it, or equal to 1.099, is interpreted as no
    significant astigmatism, and 1.101 as possible astigmatism. *)
Theorem classification_threshold {image : Type} (L : library image) :
  (forall r,
     In (line_ratio r) (printed (calls (analyze_astigmatism L))) ->
     (In msg_possible (printed (calls (analyze_astigmatism L)))
        <-> PyFloat.gtb r PyFloat.lit_1_1 = true) /\
     (In msg_no_significant (printed (calls (analyze_astigmatism L)))
        <-> PyFloat.gtb r PyFloat.lit_1_1 = false)) /\
  PyFloat.lit_1_1 = PyFloat.decimal 11 10 /\
  interpret (image := image) (PyFloat.decimal 11 10)
    = ([py_print msg_no_significant; py_print msg_spherical], Normal tt) /\
  interpret (image := image) (PyFloat.decimal 1099 1000)
    = ([py_print msg_no_significant; py_print msg_spherical], Normal tt) /\
  interpret (image := image) (PyFloat.decimal 1101 1000)
    = ([py_print msg_possible; py_print msg_elliptical], Normal tt).
Proof.
  split; [|repeat split; reflexivity].
  intros r. destruct (analyze_cases L) as (b & Hb & ->).
  rewrite printed_run_of.
  destruct b as [| |img|img c|img c|img c]; intros H; try (split_lines H; fail).
  cbv zeta in *.
  destruct (degenerate (fitEllipse L c)),
    (PyFloat.gtb (axis_ratio (fitEllipse L c)) PyFloat.lit_1_1) eqn:G;
    split_lines H; injection H as <-; rewrite G;
    (split;
     (split; intros X;
      [ first [reflexivity | split_lines X]
      | first [discriminate X | in_list] ])).
Qed.

Lemma classification_threshold_witness :
  In msg_no_significant
    (printed (calls (analyze_astigmatism
       (Sample.lib Sample.eye true [Sample.hexagon]
          (Sample.fit_of (PyFloat.decimal 1099 1000) (PyFloat.of_int 1)))))) /\
  In msg_possible
    (printed (calls (analyze_astigmatism
       (Sample.lib Sample.eye true [Sample.hexagon]
          (Sample.fit_of (PyFloat.of_int 1) (PyFloat.decimal 1101 1000)))))).
Proof.
  split.
  - destruct (classification_threshold
                (Sample.lib Sample.eye true [Sample.hexagon]
                   (Sample.fit_of (PyFloat.decimal 1099 1000) (PyFloat.of_int 1))))
      as [H _].
    destruct (H (PyFloat.decimal 1099 1000)) as [_ [_ Hno]]; [in_run|].
    apply Hno. reflexivity.
  - destruct (classification_threshold
                (Sample.lib Sample.eye true [Sample.hexagon]
                   (Sample.fit_of (PyFloat.of_int 1) (PyFloat.decimal 1101 1000))))
      as [H _].
    destruct (H (PyFloat.decimal 1101 1000)) as [[_ Hyes] _]; [in_run|].
    apply Hyes. reflexivity.
Defined.

(** C10. When the drawing of line 90 accepts the fitted box and the
    fit is degenerate ([min(major, minor) == 0]), the ratio that is
    printed is [float('inf')], which is above 1.1: the run prints the
    warning and then "Possible Astigmatism Detected", never the other
    interpretation. *)
Theorem degenerate_fit_reported_as_possible
    {image : Type} (L : library image) (c : contour) :
  In (cv2_fitEllipse c) (calls (analyze_astigmatism L)) ->
  ellipse_accepts (fitEllipse L c) 2 = true ->
  PyFloat.eqb (PyFloat.min (fst (axes (fitEllipse L c))) (snd (axes (fitEllipse L c))))
              (PyFloat.of_int 0) = true ->
  PyFloat.gtb PyFloat.inf PyFloat.lit_1_1 = true /\
  outcome (analyze_astigmatism L) = Normal tt /\
  In msg_minor_zero (printed (calls (analyze_astigmatism L))) /\
  In (line_ratio PyFloat.inf) (printed (calls (analyze_astigmatism L))) /\
  In msg_possible (printed (calls (analyze_astigmatism L))) /\
  ~ In msg_no_significant (printed (calls (analyze_astigmatism L))).
Proof.
  intros H Ha Hz.
  destruct (fitted_inversion L c H Ha) as (img & Hb).
  pose proof (printed_fitted L img c Hb) as Hp. cbv zeta in Hp.
  assert (Hd : degenerate (fitEllipse L c) = true) by exact Hz.
  assert (Hr : axis_ratio (fitEllipse L c) = PyFloat.inf).
  { unfold axis_ratio. unfold degenerate in Hd.
    destruct (axes (fitEllipse L c)) as [ma mi]. cbn [fst snd] in Hd.
    now rewrite Hd. }
  rewrite Hd, Hr in Hp.
  replace (PyFloat.gtb PyFloat.inf PyFloat.lit_1_1) with true in Hp by reflexivity.
  rewrite Hp, (run_taken L _ Hb).
  repeat split; try in_list.
  intros X. split_lines X.
Qed.

Lemma degenerate_fit_reported_as_possible_witness :
  In msg_possible
    (printed (calls (analyze_astigmatism
       (Sample.lib Sample.eye true [Sample.hexagon]
          (Sample.fit_of (PyFloat.of_int 0) (PyFloat.of_int 50)))))).
Proof.
  apply (degenerate_fit_reported_as_possible
           (Sample.lib Sample.eye true [Sample.hexagon]
              (Sample.fit_of (PyFloat.of_int 0) (PyFloat.of_int 50)))
           Sample.hexagon).
  - in_run.
  - reflexivity.
  - reflexivity.
Defined.

(** ** The axis lengths that are reported *)

(** What the report calls major and minor axis are the first and the
    second length of the fitted box, in the order the fitter gave them:
    only the ratio takes their maximum and minimum. *)
Lemma reported_axes_are_unordered {image : Type} (L : library image) (c : contour) :
  In (cv2_fitEllipse c) (calls (analyze_astigmatism L)) ->
  ellipse_accepts (fitEllipse L c) 2 = true ->
  In (line_major (fst (axes (fitEllipse L c))))
     (printed (calls (analyze_astigmatism L))) /\
  In (line_minor (snd (axes (fitEllipse L c))))
     (printed (calls (analyze_astigmatism L))).
Proof.
  intros H Ha. destruct (fitted_inversion L c H Ha) as (img & Hb).
  rewrite (printed_fitted L img c Hb).
  destruct (degenerate (fitEllipse L c)); split; in_list.
Qed.

(** C3. A fitted box of lengths (30, 50), the order in which OpenCV
    gives width and height, is reported as "Major Axis Length: 30" and
    "Minor Axis Length: 50": the value reported as major is below the
    value reported as minor, while the ratio of the same run is 50/30. *)
Theorem reported_major_below_reported_minor :
  let L := Sample.lib Sample.eye true [Sample.hexagon]
             (Sample.fit_of (PyFloat.of_int 30) (PyFloat.of_int 50)) in
  outcome (analyze_astigmatism L) = Normal tt /\
  In (line_major (PyFloat.of_int 30)) (printed (calls (analyze_astigmatism L))) /\
  In (line_minor (PyFloat.of_int 50)) (printed (calls (analyze_astigmatism L))) /\
  PyFloat.ltb (PyFloat.of_int 30) (PyFloat.of_int 50) = true /\
  PyFloat.leb (PyFloat.of_int 50) (PyFloat.of_int 30) = false /\
  In (line_ratio (PyFloat.decimal 50 30)) (printed (calls (analyze_astigmatism L))).
Proof.
  intros L. repeat split; try reflexivity; in_run.
Qed.

(** ** Independence of the path *)

Section SameStages.
Context {image : Type}.
Variables L1 L2 : library image.
Hypothesis HS : same_stages L1 L2.

Lemma same_edges (img : image) : edges_of L1 img = edges_of L2 img.
Proof.
  destruct HS as (Hcvt & Hblur & Hcanny & _).
  unfold edges_of. now rewrite Hcvt, Hblur, Hcanny.
Qed.

Lemma same_contours (img : image) : contours_of L1 img = contours_of L2 img.
Proof.
  destruct HS as (_ & _ & _ & Hfind & _).
  unfold contours_of. now rewrite same_edges, Hfind.
Qed.

Lemma same_scan (it : list contour) :
  forall m, scan (contourArea L1) m it = scan (contourArea L2) m it.
Proof.
  destruct HS as (_ & _ & _ & _ & Harea & _).
  induction it as [|x it IH]; intros m; simpl; [reflexivity|].
  rewrite !Harea. destruct (PyFloat.gtb _ _); apply IH.
Qed.

Lemma same_largest (img : image) :
  largest_contour L1 img = largest_contour L2 img.
Proof.
  unfold largest_contour, first_max. rewrite same_contours.
  destruct (contours_of L2 img); [reflexivity|]. now rewrite same_scan.
Qed.

Lemma same_after_load (b : branch) : after_load L1 b = after_load L2 b.
Proof.
  pose proof same_edges as He. pose proof same_contours as Hc.
  destruct HS as (Hcvt & Hblur & Hcanny & Hfind & Harea & Hfit & Hdraw).
  destruct b as [| |img|img c|img c|img c]; simpl; try reflexivity;
    unfold t_stages, t_no_contours, t_select, t_not_enough_points,
      t_report, t_fit, t_warning, t_metrics, t_show;
    rewrite ?He, ?Hc, ?Hfit; repeat rewrite Hcvt; repeat rewrite Hblur;
    repeat rewrite Hdraw; repeat rewrite Hcvt; reflexivity.
Qed.

Lemma same_branch (img : image) (b : branch) :
  image_path L1 <> "" ->
  image_path L2 <> "" ->
  imread L1 (image_path L1) = Some img ->
  imread L2 (image_path L2) = Some img ->
  taken L1 b -> taken L2 b.
Proof.
  intros Hp1 Hp2 Hi1 Hi2.
  assert (Hfit : forall c, fitEllipse L1 c = fitEllipse L2 c) by apply HS.
  destruct b as [| |img'|img' c|img' c|img' c]; simpl.
  - intros H. contradiction.
  - intros [_ H]. congruence.
  - intros (_ & H & Hc). assert (img' = img) as -> by congruence.
    rewrite <- same_contours. auto.
  - intros (_ & H & Hc & Hn). assert (img' = img) as -> by congruence.
    rewrite <- same_largest. auto.
  - intros (_ & H & Hc & Hn & Ha). assert (img' = img) as -> by congruence.
    rewrite <- same_largest, <- Hfit. auto.
  - intros (_ & H & Hc & Hn & Ha). assert (img' = img) as -> by congruence.
    rewrite <- same_largest, <- Hfit. auto.
Qed.

End SameStages.

Lemma calls_after_load {image : Type} (L : library image) (img : image) (b : branch) :
  imread L (image_path L) = Some img ->
  taken L b ->
  image_path L <> "" ->
  calls (run_of L b) = t_dialog ++ t_load L ++ after_load L b /\
  tl (printed (calls (run_of L b))) = printed (after_load L b).
Proof.
  intros Hi Hb Hp.
  destruct b as [| |img'|img' c|img' c|img' c]; simpl in Hb.
  - contradiction.
  - destruct Hb as [_ Hb]. congruence.
  - split; reflexivity.
  - split; reflexivity.
  - split; reflexivity.
  - split; reflexivity.
Qed.

(** X10. The path does not enter the results.  Two runs that decode
    the same image from different paths, with the same processing
    functions, make the same calls after the decoding, print the same
    lines after the file name (centre, axis lengths, angle, ratio and
    interpretation among them) and end the same way. *)
Theorem results_do_not_depend_on_path
    {image : Type} (L1 L2 : library image) (img : image) :
  same_stages L1 L2 ->
  askopenfilename L1 <> "" ->
  askopenfilename L2 <> "" ->
  imread L1 (askopenfilename L1) = Some img ->
  imread L2 (askopenfilename L2) = Some img ->
  outcome (analyze_astigmatism L1) = outcome (analyze_astigmatism L2) /\
  tl (printed (calls (analyze_astigmatism L1)))
    = tl (printed (calls (analyze_astigmatism L2))) /\
  exists t,
    calls (analyze_astigmatism L1) = t_dialog ++ t_load L1 ++ t /\
    calls (analyze_astigmatism L2) = t_dialog ++ t_load L2 ++ t.
Proof.
  intros HS Hp1 Hp2 Hi1 Hi2.
  destruct (some_branch_taken L1) as [b Hb1].
  pose proof (same_branch L1 L2 HS img b Hp1 Hp2 Hi1 Hi2 Hb1) as Hb2.
  rewrite (run_taken L1 b Hb1), (run_taken L2 b Hb2).
  destruct (calls_after_load L1 img b Hi1 Hb1 Hp1) as [Hc1 Ht1].
  destruct (calls_after_load L2 img b Hi2 Hb2 Hp2) as [Hc2 Ht2].
  split; [|split].
  - destruct b; reflexivity.
  - rewrite Ht1, Ht2. now rewrite (same_after_load L1 L2 HS).
  - exists (after_load L2 b). split; [|exact Hc2].
    rewrite Hc1. now rewrite (same_after_load L1 L2 HS).
Qed.

Lemma results_do_not_depend_on_path_witness :
  tl (printed (calls (analyze_astigmatism
        (Sample.lib Sample.eye true [Sample.ring; Sample.hexagon]
           (Sample.fit_of (PyFloat.of_int 30) (PyFloat.of_int 50))))))
  = tl (printed (calls (analyze_astigmatism
        (Sample.copied_to "/tmp/copy.png"
           (Sample.lib Sample.eye true [Sample.ring; Sample.hexagon]
              (Sample.fit_of (PyFloat.of_int 30) (PyFloat.of_int 50))))))).
Proof.
  apply (results_do_not_depend_on_path
           (Sample.lib Sample.eye true [Sample.ring; Sample.hexagon]
              (Sample.fit_of (PyFloat.of_int 30) (PyFloat.of_int 50)))
           (Sample.copied_to "/tmp/copy.png"
              (Sample.lib Sample.eye true [Sample.ring; Sample.hexagon]
                 (Sample.fit_of (PyFloat.of_int 30) (PyFloat.of_int 50))))
           [Sample.eye]).
  - repeat split; reflexivity.
  - discriminate.
  - discriminate.
  - reflexivity.
  - reflexivity.
Defined.

(** ** Further properties of the procedure *)

Lemma scan_in {A : Type} (key : A -> float) (it : list A) :
  forall m, In (scan key m it) (m :: it).
Proof.
  induction it as [|x it IH]; intros m; simpl; [now left|].
  destruct (PyFloat.gtb (key x) (key m)).
  - right. apply IH.
  - destruct (IH m) as [H|H]; [now left | right; now right].
Qed.

Lemma shown_app {image : Type} (t1 t2 : trace image) :
  shown (t1 ++ t2) = (shown t1 + shown t2)%nat.
Proof.
  induction t1 as [|c t1 IH]; simpl; [reflexivity|].
  destruct c; simpl; rewrite ?IH; reflexivity.
Qed.

Lemma shown_contourArea {image : Type} (l : list contour) :
  shown (map (cv2_contourArea (image := image)) l) = 0%nat.
Proof. induction l; simpl; auto. Qed.

Lemma stage_calls_contourArea {image : Type} (l : list contour) :
  filter pipeline_stage (map (cv2_contourArea (image := image)) l)
  = map cv2_contourArea l.
Proof. induction l as [|c l IH]; simpl; [reflexivity | now rewrite IH]. Qed.

(** The library calls of each branch, in order. *)
Lemma stage_calls_run_of {image : Type} (L : library image) (b : branch) :
  filter pipeline_stage (calls (run_of L b)) =
  match b with
  | NoSelection => []
  | DecodeFailure => [cv2_imread (askopenfilename L)]
  | NoContours img =>
      cv2_imread (askopenfilename L) :: t_stages L img
      ++ [cv2_cvtColor img COLOR_BGR2RGB]
  | NotEnoughPoints img _ =>
      cv2_imread (askopenfilename L) :: t_stages L img ++ t_select L img
  | DrawRejected img c =>
      cv2_imread (askopenfilename L) :: t_stages L img ++ t_select L img
      ++ [cv2_fitEllipse c;
          ndarray_copy img;
          cv2_ellipse img (fitEllipse L c) (0, 255, 0) 2]
  | Fitted img c =>
      cv2_imread (askopenfilename L) :: t_stages L img ++ t_select L img
      ++ [cv2_fitEllipse c;
          ndarray_copy img;
          cv2_ellipse img (fitEllipse L c) (0, 255, 0) 2;
          cv2_cvtColor (draw_ellipse L img (fitEllipse L c) (0, 255, 0) 2)
            COLOR_BGR2RGB]
  end.
Proof.
  destruct b as [| |img|img c|img c|img c]; cbn [calls run_of fst];
    unfold t_select, t_report, t_warning, t_interpret;
    rewrite ?filter_app, ?stage_calls_contourArea; try reflexivity.
  - simpl. now rewrite app_nil_r.
  - destruct (degenerate (fitEllipse L c)),
      (PyFloat.gtb (axis_ratio (fitEllipse L c)) PyFloat.lit_1_1); reflexivity.
Qed.

Lemma stage_call_in {image : Type} (L : library image) (x : call image) :
  pipeline_stage x = true ->
  In x (calls (analyze_astigmatism L)) ->
  exists b, taken L b /\ In x (filter pipeline_stage (calls (run_of L b))).
Proof.
  intros Hx H. destruct (analyze_cases L) as (b & Hb & Hrun).
  exists b. split; [exact Hb|]. rewrite <- Hrun. apply filter_In. now split.
Qed.

(** X1. The stages are chained with fixed parameters.  In any run, a
    Gaussian blur is applied to the grayscale conversion of the decoded
    image with kernel (7, 7) and sigma 0; Canny to that blur with
    thresholds 30 and 150; the contour extraction to that edge map, for
    outer contours with simple chain approximation; and an area is only
    asked of a contour that the extraction returned. *)
Theorem stages_are_chained {image : Type} (L : library image) :
  (forall src k sg,
     In (cv2_GaussianBlur src k sg) (calls (analyze_astigmatism L)) ->
     exists img, imread L (askopenfilename L) = Some img /\
       src = cvtColor L img COLOR_BGR2GRAY /\ k = (7, 7) /\ sg = 0) /\
  (forall src lo hi,
     In (cv2_Canny src lo hi) (calls (analyze_astigmatism L)) ->
     exists img, imread L (askopenfilename L) = Some img /\
       src = GaussianBlur L (cvtColor L img COLOR_BGR2GRAY) (7, 7) 0 /\
       lo = 30 /\ hi = 150) /\
  (forall src md mt,
     In (cv2_findContours src md mt) (calls (analyze_astigmatism L)) ->
     exists img, imread L (askopenfilename L) = Some img /\
       src = Canny L (GaussianBlur L (cvtColor L img COLOR_BGR2GRAY) (7, 7) 0) 30 150 /\
       md = RETR_EXTERNAL /\ mt = CHAIN_APPROX_SIMPLE) /\
  (forall c,
     In (cv2_contourArea c) (calls (analyze_astigmatism L)) ->
     exists img, imread L (askopenfilename L) = Some img /\
       In c (findContours L
               (Canny L (GaussianBlur L (cvtColor L img COLOR_BGR2GRAY) (7, 7) 0) 30 150)
               RETR_EXTERNAL CHAIN_APPROX_SIMPLE)).
Proof.
  repeat split; intros;
    repeat match goal with
           | m : retrieval_mode |- _ => destruct m
           | m : approx_method |- _ => destruct m
           end;
    match goal with H : In _ _ |- _ =>
      apply stage_call_in in H; [|reflexivity];
      destruct H as (b & Hb & H); rewrite stage_calls_run_of in H
    end;
    destruct b as [| |img|img c'|img c'|img c']; simpl in Hb;
    unfold t_stages, t_select, edges_of, contours_of in *;
    split_in H;
    try (injection H as <-; exists img; repeat split; apply Hb);
    try (injection H as <- <- <-; exists img; repeat split; apply Hb);
    try (injection H as <-; exists img; split; [apply Hb | assumption]).
Qed.

Lemma stages_are_chained_witness :
  exists img : Sample.image,
    imread (Sample.lib Sample.eye true [Sample.hexagon]
              (Sample.fit_of (PyFloat.of_int 30) (PyFloat.of_int 50)))
           Sample.eye = Some img /\
    [Sample.eye; "gray"; "blur"] = (img ++ ["gray"]) ++ ["blur"].
Proof.
  destruct (stages_are_chained
              (Sample.lib Sample.eye true [Sample.hexagon]
                 (Sample.fit_of (PyFloat.of_int 30) (PyFloat.of_int 50))))
    as (_ & H & _).
  destruct (H [Sample.eye; "gray"; "blur"] 30 150) as (img & Hi & Hsrc & _);
    [in_run|].
  exists img. split; [exact Hi | exact Hsrc].
Defined.

(** The images handed to [plt.imshow] and the number of [plt.show]
    calls of each branch. *)
Lemma displayed_run_of {image : Type} (L : library image) (b : branch) :
  displayed (calls (run_of L b)) =
  match b with
  | NoSelection | DecodeFailure | DrawRejected _ _ => []
  | NoContours img => [(cvtColor L img COLOR_BGR2RGB, None)]
  | NotEnoughPoints img _ => [(edges_of L img, Some "gray")]
  | Fitted img c =>
      [(cvtColor L (draw_ellipse L img (fitEllipse L c) (0, 255, 0) 2) COLOR_BGR2RGB,
        None)]
  end /\
  shown (calls (run_of L b)) =
  match b with
  | NoSelection | DecodeFailure | DrawRejected _ _ => 0%nat
  | _ => 1%nat
  end.
Proof.
  destruct b as [| |img|img c|img c|img c]; cbn [calls run_of fst];
    unfold t_select, t_report, t_warning, t_interpret;
    rewrite ?displayed_app, ?displayed_contourArea, ?shown_app, ?shown_contourArea;
    try (split; reflexivity).
  destruct (degenerate (fitEllipse L c)),
    (PyFloat.gtb (axis_ratio (fitEllipse L c)) PyFloat.lit_1_1); split; reflexivity.
Qed.

(** X2. At most one figure.  Every run calls [plt.show] once per
    image it hands to [plt.imshow], and at most once; it shows nothing
    exactly when no file was selected, the file did not decode, or the
    run ended in an exception.  What is shown is the decoded image
    converted to RGB, the edge map in gray, or the RGB conversion of
    the image with the fitted ellipse drawn on it. *)
Theorem one_figure_per_decoded_image {image : Type} (L : library image) :
  shown (calls (analyze_astigmatism L))
    = List.length (displayed (calls (analyze_astigmatism L))) /\
  (List.length (displayed (calls (analyze_astigmatism L))) <= 1)%nat /\
  (displayed (calls (analyze_astigmatism L)) = [] <->
   askopenfilename L = "" \/ imread L (askopenfilename L) = None \/
   exists e, outcome (analyze_astigmatism L) = Raised e) /\
  (forall X cmap,
     In (X, cmap) (displayed (calls (analyze_astigmatism L))) ->
     exists img,
       imread L (askopenfilename L) = Some img /\
       ((X = cvtColor L img COLOR_BGR2RGB /\ cmap = None) \/
        (X = Canny L (GaussianBlur L (cvtColor L img COLOR_BGR2GRAY) (7, 7) 0) 30 150 /\
         cmap = Some "gray") \/
        (exists c,
           X = cvtColor L (draw_ellipse L img (fitEllipse L c) (0, 255, 0) 2)
                 COLOR_BGR2RGB /\ cmap = None))).
Proof.
  destruct (analyze_cases L) as (b & Hb & ->).
  destruct (displayed_run_of L b) as [Hd Hs]. rewrite Hd, Hs.
  destruct b as [| |img|img c|img c|img c]; simpl in Hb; unfold image_path in Hb;
    (split; [reflexivity|]); (split; [simpl; lia|]); split.
  - split; auto.
  - intros X cmap [].
  - split; [intros _; right; left; apply Hb | reflexivity].
  - intros X cmap [].
  - split; [discriminate|]. intros [H|[H|[e H]]];
      [tauto | destruct Hb as (_ & Hi & _); congruence | discriminate H].
  - intros X cmap [[= <- <-]|[]]. exists img. split; [apply Hb | left; auto].
  - split; [discriminate|]. intros [H|[H|[e H]]];
      [tauto | destruct Hb as (_ & Hi & _); congruence | discriminate H].
  - intros X cmap [[= <- <-]|[]]. exists img. split; [apply Hb | right; left; auto].
  - split; [|reflexivity]. intros _. right. right. exists cv2_error. reflexivity.
  - intros X cmap [].
  - split; [discriminate|]. intros [H|[H|[e H]]];
      [tauto | destruct Hb as (_ & Hi & _); congruence | discriminate H].
  - intros X cmap [[= <- <-]|[]]. exists img.
    split; [apply Hb | right; right; exists c; auto].
Qed.

Lemma one_figure_per_decoded_image_witness :
  exists img : Sample.image,
    imread (Sample.lib Sample.eye true [Sample.ring; Sample.square]
              (Sample.fit_of (PyFloat.of_int 30) (PyFloat.of_int 50)))
           Sample.eye = Some img.
Proof.
  destruct (one_figure_per_decoded_image
              (Sample.lib Sample.eye true [Sample.ring; Sample.square]
                 (Sample.fit_of (PyFloat.of_int 30) (PyFloat.of_int 50))))
    as (_ & _ & _ & H).
  destruct (H [Sample.eye; "gray"; "blur"; "canny"] (Some "gray")) as (img & Hi & _);
    [in_run | exists img; exact Hi].
Defined.

(** X3. The overlay.  In a run that fits contour [c], the only
    drawing call is made on (a copy of) the decoded image, with the
    ellipse that the fitter returned for [c], in colour (0, 255, 0) and
    thickness 2.  When the drawing accepts that box (no length negative
    or NaN), the figure shown is the RGB conversion of the drawing and
    the last call of the run is [plt.show]; when it rejects the box,
    the drawing call is the last call of the run, which ends in
    [cv2.error] with nothing shown and no result printed. *)
Theorem fitted_run_draws_the_fit {image : Type} (L : library image) (c : contour) :
  In (cv2_fitEllipse c) (calls (analyze_astigmatism L)) ->
  exists img,
    imread L (askopenfilename L) = Some img /\
    (forall i box col th,
       In (cv2_ellipse i box col th) (calls (analyze_astigmatism L)) ->
       i = img /\ box = fitEllipse L c /\ col = (0, 255, 0) /\ th = 2) /\
    In (cv2_ellipse img (fitEllipse L c) (0, 255, 0) 2)
       (calls (analyze_astigmatism L)) /\
    (ellipse_accepts (fitEllipse L c) 2 = true ->
     outcome (analyze_astigmatism L) = Normal tt /\
     displayed (calls (analyze_astigmatism L)) =
       [(cvtColor L (draw_ellipse L img (fitEllipse L c) (0, 255, 0) 2) COLOR_BGR2RGB,
         None)] /\
     last (calls (analyze_astigmatism L)) tk_Tk = plt_show) /\
    (ellipse_accepts (fitEllipse L c) 2 = false ->
     outcome (analyze_astigmatism L) = Raised cv2_error /\
     displayed (calls (analyze_astigmatism L)) = [] /\
     printed (calls (analyze_astigmatism L))
       = [[Lit "Selected image: "; Fmt_s (basename L (askopenfilename L))]] /\
     last (calls (analyze_astigmatism L)) tk_Tk
       = cv2_ellipse img (fitEllipse L c) (0, 255, 0) 2).
Proof.
  intros H. destruct (fit_call_inversion L c H) as (img & Hp & Hi & Hc & Hn).
  exists img. split; [exact Hi|]. split; [|split; [|split]].
  - intros i box col th Hin.
    apply stage_call_in in Hin; [|reflexivity].
    destruct Hin as (b & Hb' & Hin). rewrite stage_calls_run_of in Hin.
    destruct b as [| |img'|img' c'|img' c'|img' c'];
      unfold t_stages, t_select in Hin; split_in Hin;
      injection Hin as <- <- <- <-;
      destruct Hb' as (_ & Hi' & Hc' & _);
      assert (img' = img) as -> by congruence;
      assert (c' = c) as -> by congruence; auto.
  - destruct (ellipse_accepts (fitEllipse L c) 2) eqn:Ha.
    + rewrite (run_taken L (Fitted img c)) by (repeat split; assumption).
      cbn [calls run_of fst]. unfold t_report, t_fit.
      rewrite !in_app_iff. do 4 right. left. in_list.
    + rewrite (run_taken L (DrawRejected img c)) by (repeat split; assumption).
      cbn [calls run_of fst]. unfold t_fit.
      rewrite !in_app_iff. do 4 right. in_list.
  - intros Ha.
    assert (Hb : taken L (Fitted img c)) by (repeat split; assumption).
    rewrite (run_taken L _ Hb). split; [reflexivity|]. split.
    + exact (proj1 (displayed_run_of L (Fitted img c))).
    + cbn [calls run_of fst]. unfold t_report, t_show. rewrite !app_assoc.
      repeat rewrite <- app_comm_cons || rewrite last_app_cons.
      reflexivity.
  - intros Ha.
    assert (Hb : taken L (DrawRejected img c)) by (repeat split; assumption).
    rewrite (run_taken L _ Hb). split; [reflexivity|]. split; [|split].
    + exact (proj1 (displayed_run_of L (DrawRejected img c))).
    + exact (printed_run_of L (DrawRejected img c)).
    + cbn [calls run_of fst]. unfold t_fit.
      rewrite !app_assoc, last_app_cons. reflexivity.
Qed.

Lemma fitted_run_draws_the_fit_witness :
  exists img : Sample.image,
    imread (Sample.lib Sample.eye true [Sample.hexagon]
              (Sample.fit_of (PyFloat.of_int 30) (PyFloat.of_int 50)))
           Sample.eye = Some img.
Proof.
  destruct (fitted_run_draws_the_fit
              (Sample.lib Sample.eye true [Sample.hexagon]
                 (Sample.fit_of (PyFloat.of_int 30) (PyFloat.of_int 50)))
              Sample.hexagon) as (img & Hi & _); [in_run|].
  exists img. exact Hi.
Defined.


(** The drawing rejects a fitted box with a NaN or a negative length:
    the run ends there, after the file name was printed. *)
Example nan_length_is_rejected :
  analyze_astigmatism
    (Sample.lib Sample.eye true [Sample.hexagon]
       (Sample.fit_of S754_nan (PyFloat.of_int 50)))
  = (t_dialog
     ++ t_load (Sample.lib Sample.eye true [Sample.hexagon]
                  (Sample.fit_of S754_nan (PyFloat.of_int 50)))
     ++ t_stages (Sample.lib Sample.eye true [Sample.hexagon]
                    (Sample.fit_of S754_nan (PyFloat.of_int 50))) [Sample.eye]
     ++ [cv2_contourArea Sample.hexagon;
         cv2_fitEllipse Sample.hexagon;
         ndarray_copy [Sample.eye];
         cv2_ellipse [Sample.eye] (Sample.fit_of S754_nan (PyFloat.of_int 50))
           (0, 255, 0) 2],
     Raised cv2_error).
Proof. vm_compute. reflexivity. Qed.

Example negative_length_is_rejected :
  outcome (analyze_astigmatism
    (Sample.lib Sample.eye true [Sample.hexagon]
       (Sample.fit_of (PyFloat.of_int (-1)) (PyFloat.of_int 50))))
  = Raised cv2_error /\
  printed (calls (analyze_astigmatism
    (Sample.lib Sample.eye true [Sample.hexagon]
       (Sample.fit_of (PyFloat.of_int (-1)) (PyFloat.of_int 50)))))
  = [[Lit "Selected image: "; Fmt_s "eye.png"]].
Proof. split; vm_compute; reflexivity. Qed.


(** X5. The fitted contour is an extracted one.  Whatever the areas
    are (also when some are not numbers), the contour handed to the
    fitter is one of those [cv2.findContours] returned for the edge
    map of the decoded image, and its area was asked for. *)
Theorem fitted_contour_was_extracted {image : Type} (L : library image) (c : contour) :
  In (cv2_fitEllipse c) (calls (analyze_astigmatism L)) ->
  exists img,
    imread L (askopenfilename L) = Some img /\
    In c (findContours L
            (Canny L (GaussianBlur L (cvtColor L img COLOR_BGR2GRAY) (7, 7) 0) 30 150)
            RETR_EXTERNAL CHAIN_APPROX_SIMPLE) /\
    In (cv2_contourArea c) (calls (analyze_astigmatism L)).
Proof.
  intros H. destruct (fit_call_inversion L c H) as (img & Hp & Hi & Hc & Hn).
  destruct (largest_contour_cons L img c Hc) as (c0 & cs & Hcs & Hs).
  assert (Hin : In c (contours_of L img))
    by (rewrite Hcs, Hs; apply scan_in).
  exists img. split; [exact Hi|]. split; [exact Hin|].
  destruct (ellipse_accepts (fitEllipse L c) 2) eqn:Ha.
  - rewrite (run_taken L (Fitted img c)) by (repeat split; assumption).
    cbn [calls run_of fst]. unfold t_select.
    rewrite !in_app_iff. right. right. right. left.
    apply in_map. exact Hin.
  - rewrite (run_taken L (DrawRejected img c)) by (repeat split; assumption).
    cbn [calls run_of fst]. unfold t_select.
    rewrite !in_app_iff. right. right. right. left.
    apply in_map. exact Hin.
Qed.

Lemma fitted_contour_was_extracted_witness :
  exists img : Sample.image,
    imread (Sample.lib Sample.eye true [Sample.ring; Sample.hexagon]
              (Sample.fit_of (PyFloat.of_int 30) (PyFloat.of_int 50)))
           Sample.eye = Some img /\
    In Sample.hexagon [Sample.ring; Sample.hexagon].
Proof.
  destruct (fitted_contour_was_extracted
              (Sample.lib Sample.eye true [Sample.ring; Sample.hexagon]
                 (Sample.fit_of (PyFloat.of_int 30) (PyFloat.of_int 50)))
              Sample.hexagon) as (img & Hi & Hin & _); [in_run|].
  exists img. split; [exact Hi | exact Hin].
Defined.

(** X6. The warning is printed exactly for a zero of either sign.  A
    run prints "Warning: Minor axis is zero" if and only if it fitted
    a contour, the drawing accepted the fitted box, and
    [min(major_axis, minor_axis)] is [0.0] or [-0.0]; a NaN or a
    negative minimum does not trigger it. *)
Theorem warning_iff_zero_minimum {image : Type} (L : library image) :
  In msg_minor_zero (printed (calls (analyze_astigmatism L))) <->
  exists c s,
    In (cv2_fitEllipse c) (calls (analyze_astigmatism L)) /\
    ellipse_accepts (fitEllipse L c) 2 = true /\
    PyFloat.min (fst (axes (fitEllipse L c))) (snd (axes (fitEllipse L c)))
      = S754_zero s.
Proof.
  split.
  - destruct (analyze_cases L) as (b & Hb & Hrun).
    rewrite Hrun at 1. rewrite printed_run_of.
    destruct b as [| |img|img c|img c|img c]; intros H; try (split_lines H; fail).
    cbv zeta in H.
    destruct (degenerate (fitEllipse L c)) eqn:Hd.
    + apply FloatOrder.eqb_zero in Hd. destruct Hd as [s Hs].
      exists c, s. split; [|split; [apply Hb | exact Hs]].
      rewrite Hrun. cbn [calls run_of fst]. unfold t_report, t_fit.
      rewrite !in_app_iff. do 4 right. left. now left.
    + destruct (PyFloat.gtb (axis_ratio (fitEllipse L c)) PyFloat.lit_1_1);
        split_lines H.
  - intros (c & s & H & Ha & Hs).
    destruct (fitted_inversion L c H Ha) as (img & Hb).
    rewrite (printed_fitted L img c Hb).
    assert (Hd : degenerate (fitEllipse L c) = true)
      by (apply FloatOrder.eqb_zero; eauto).
    rewrite Hd. in_list.
Qed.

Lemma warning_iff_zero_minimum_witness :
  In msg_minor_zero
    (printed (calls (analyze_astigmatism
       (Sample.lib Sample.eye true [Sample.hexagon]
          (Sample.fit_of (PyFloat.of_int 50) (S754_zero true)))))).
Proof.
  apply (warning_iff_zero_minimum
           (Sample.lib Sample.eye true [Sample.hexagon]
              (Sample.fit_of (PyFloat.of_int 50) (S754_zero true)))).
  exists Sample.hexagon, true. split; [in_run|]. split; reflexivity.
Defined.

(** Two numbers of which neither is below the other are the same
    value, or two zeros. *)
Lemma neither_below (a b : float) :
  PyFloat.is_nan a = false -> PyFloat.is_nan b = false ->
  PyFloat.ltb a b = false -> PyFloat.ltb b a = false ->
  a = b \/ exists s1 s2, a = S754_zero s1 /\ b = S754_zero s2.
Proof.
  unfold PyFloat.ltb, SFltb.
  destruct a as [sa|[]| |[] m1 e1], b as [sb|[]| |[] m2 e2]; simpl;
    intros Ha Hb H1 H2; try discriminate; try (left; reflexivity);
    try (right; eauto; fail);
    rewrite ?FloatOrder.compare_cont_Eq in *;
    destruct (Z.compare_spec e1 e2); try discriminate;
    destruct (Z.compare_spec e2 e1); try discriminate; try lia;
    destruct (Pos.compare_spec m1 m2); try discriminate;
    destruct (Pos.compare_spec m2 m1); try discriminate; try lia;
    subst; left; reflexivity.
Qed.

(** X7. The ratio does not depend on the order of the two lengths.
    For lengths that are numbers, lines 94-99 print the same warning
    (or none) and compute the same ratio whichever of the two the
    fitter returns first. *)
Theorem axis_ratio_independent_of_order {image : Type} (a b : float) :
  PyFloat.is_nan a = false -> PyFloat.is_nan b = false ->
  compute_axis_ratio (image := image) a b = compute_axis_ratio b a.
Proof.
  intros Ha Hb.
  unfold compute_axis_ratio, PyFloat.truediv, PyFloat.min, PyFloat.max, PyFloat.gtb.
  change (@SFltb) with PyFloat.ltb.
  destruct (PyFloat.ltb b a) eqn:Hba, (PyFloat.ltb a b) eqn:Hab; try reflexivity.
  - apply FloatOrder.ltb_asym in Hba. congruence.
  - destruct (neither_below a b Ha Hb Hab Hba) as [->|(s1 & s2 & -> & ->)];
      reflexivity.
Qed.

Lemma axis_ratio_independent_of_order_witness :
  compute_axis_ratio (image := Sample.image) (PyFloat.of_int 30) (PyFloat.of_int 50)
  = compute_axis_ratio (PyFloat.of_int 50) (PyFloat.of_int 30).
Proof.
  apply (axis_ratio_independent_of_order (PyFloat.of_int 30) (PyFloat.of_int 50));
    reflexivity.
Defined.

(** The quotient of a finite non-zero binary64 value by itself is 1. *)
Lemma SFdiv_same (s : bool) (m : positive) (e : Z) :
  SFdiv PyFloat.prec PyFloat.emax (S754_finite s m e) (S754_finite s m e)
  = PyFloat.of_int 1.
Proof.
  unfold SFdiv, SFdiv_core_binary.
  replace (Zdigits2 (Z.pos m) + e - (Zdigits2 (Z.pos m) + e)) with 0 by lia.
  replace (e - e) with 0 by lia.
  change (Z.min (fexp PyFloat.prec PyFloat.emax 0) 0) with (-53).
  change (0 - -53) with 53.
  cbv beta iota zeta.
  assert (Hq : Z.div_eucl (Z.shiftl (Z.pos m) 53) (Z.pos m) = (2 ^ 53, 0)).
  { rewrite Z.shiftl_mul_pow2 by lia.
    pose proof (Z.div_eucl_eq (Z.pos m * 2 ^ 53) (Z.pos m) ltac:(lia)) as Heq.
    pose proof (Z.mod_pos_bound (Z.pos m * 2 ^ 53) (Z.pos m) ltac:(lia)) as Hr.
    unfold Z.modulo in Hr.
    destruct (Z.div_eucl (Z.pos m * 2 ^ 53) (Z.pos m)) as [q r].
    assert (r = 0 /\ q = 2 ^ 53) as [-> ->]; [|reflexivity].
    assert (Hm : Z.pos m * (2 ^ 53 - q) = r) by lia.
    assert (2 ^ 53 - q = 0) by nia. split; lia. }
  rewrite Hq. destruct s; simpl xorb; unfold new_location;
    destruct (Z.even (Z.pos m)); reflexivity.
Qed.

(** X8. A circular fit.  When the fitter returns two equal finite
    non-zero lengths that the drawing accepts, the ratio that is
    printed is exactly 1, no warning is printed and the interpretation
    is "No Significant Astigmatism". *)
Theorem circular_fit_has_ratio_one
    {image : Type} (L : library image) (c : contour)
    (s : bool) (m : positive) (e : Z) :
  In (cv2_fitEllipse c) (calls (analyze_astigmatism L)) ->
  axes (fitEllipse L c) = (S754_finite s m e, S754_finite s m e) ->
  ellipse_accepts (fitEllipse L c) 2 = true ->
  In (line_ratio (PyFloat.of_int 1)) (printed (calls (analyze_astigmatism L))) /\
  In msg_no_significant (printed (calls (analyze_astigmatism L))) /\
  ~ In msg_possible (printed (calls (analyze_astigmatism L))) /\
  ~ In msg_minor_zero (printed (calls (analyze_astigmatism L))).
Proof.
  intros H Hax Ha.
  destruct (fitted_inversion L c H Ha) as (img & Hb).
  rewrite (printed_fitted L img c Hb). cbv zeta.
  assert (Hmin : PyFloat.min (S754_finite s m e) (S754_finite s m e)
                 = S754_finite s m e).
  { unfold PyFloat.min. now destruct (PyFloat.ltb _ _). }
  assert (Hmax : PyFloat.max (S754_finite s m e) (S754_finite s m e)
                 = S754_finite s m e).
  { unfold PyFloat.max. now destruct (PyFloat.gtb _ _). }
  assert (Hd : degenerate (fitEllipse L c) = false).
  { unfold degenerate. rewrite Hax. cbn [fst snd]. rewrite Hmin.
    destruct s; reflexivity. }
  assert (Hr : axis_ratio (fitEllipse L c) = PyFloat.of_int 1).
  { unfold axis_ratio. rewrite Hax, Hmin, Hmax.
    replace (PyFloat.eqb (S754_finite s m e) (PyFloat.of_int 0)) with false
      by (destruct s; reflexivity).
    apply SFdiv_same. }
  rewrite Hd, Hr.
  replace (PyFloat.gtb (PyFloat.of_int 1) PyFloat.lit_1_1) with false by reflexivity.
  repeat split; try in_list; intros X; split_lines X.
Qed.

Lemma circular_fit_has_ratio_one_witness :
  In msg_no_significant
    (printed (calls (analyze_astigmatism
       (Sample.lib Sample.eye true [Sample.hexagon]
          (Sample.fit_of (S754_finite false 5629499534213120 (-47))
                         (S754_finite false 5629499534213120 (-47))))))).
Proof.
  apply (circular_fit_has_ratio_one
           (Sample.lib Sample.eye true [Sample.hexagon]
              (Sample.fit_of (S754_finite false 5629499534213120 (-47))
                             (S754_finite false 5629499534213120 (-47))))
           Sample.hexagon false 5629499534213120 (-47)).
  - in_run.
  - reflexivity.
  - reflexivity.
Defined.

(** X9. The first line of the console output.  Every run prints at
    least one line, and the first is "No image selected. Exiting." when
    the dialog was dismissed and "Selected image: " followed by the
    base name of the chosen path otherwise - only the base name, the
    full path appears solely in the load error. *)
Theorem first_line_names_the_selection {image : Type} (L : library image) :
  hd_error (printed (calls (analyze_astigmatism L))) =
    Some (if truthy (askopenfilename L)
          then [Lit "Selected image: "; Fmt_s (basename L (askopenfilename L))]
          else [Lit "No image selected. Exiting."]) /\
  (forall m, In m (printed (calls (analyze_astigmatism L))) ->
     In (Fmt_s (askopenfilename L)) m ->
     m = msg_load_error (askopenfilename L) \/
     basename L (askopenfilename L) = askopenfilename L).
Proof.
  destruct (analyze_cases L) as (b & Hb & ->). rewrite printed_run_of.
  assert (Ht : truthy (askopenfilename L)
               = match b with NoSelection => false | _ => true end).
  { destruct b; simpl in Hb; unfold image_path in Hb.
    - now rewrite Hb.
    - now apply truthy_nonempty.
    - now apply truthy_nonempty.
    - now apply truthy_nonempty.
    - now apply truthy_nonempty.
    - now apply truthy_nonempty. }
  rewrite Ht. split.
  - destruct b; reflexivity.
  - intros m' Hm Hin.
    destruct b as [| |img|img c|img c|img c]; cbv zeta in Hm;
      try destruct (degenerate (fitEllipse L c));
      try destruct (PyFloat.gtb (axis_ratio (fitEllipse L c)) PyFloat.lit_1_1);
      split_lines Hm; subst m'; try (left; reflexivity);
      split_lines Hin; try (injection Hin as Hin; right; exact Hin).
Qed.

Lemma first_line_names_the_selection_witness :
  msg_load_error Sample.eye = msg_load_error Sample.eye \/
  Sample.basename_from EmptyString Sample.eye = Sample.eye.
Proof.
  destruct (first_line_names_the_selection
              (Sample.lib Sample.eye false [Sample.hexagon]
                 (Sample.fit_of (PyFloat.of_int 30) (PyFloat.of_int 50))))
    as [_ H].
  apply (H (msg_load_error Sample.eye)); in_run.
Defined.
